(** * gwtransport1d: the deposition-inversion engine (deposition.py)

    A shallow embedding of [deposition_coefficients], [nullspace],
    [compute_deposition] and [compute_concentration], and the properties of
    the specification settled against it.

    Numbers.  A numpy float64 is modelled as an exact rational extended with
    the IEEE special values: finite arithmetic is exact (no rounding, no
    overflow, one zero), the special values follow the IEEE rules.
    Time.  A pandas Timestamp is a rational number of days since the epoch
    and a Timedelta a rational number of days.  pandas stores both as 64-bit
    tick counts: the conversion [pd.to_timedelta(x, unit="D")] of a float
    rounds to whole ticks and raises on what it cannot represent, and so
    does the subtraction of a Timedelta from a Timestamp.  These two
    operations are parameters of the model, with a result that may be an
    error.
    External numerical routines ([numpy.linalg.lstsq], [numpy.linalg.svd],
    [scipy.optimize.minimize]), each of which may raise, and the
    residence-time provider
    ([gwtransport1d.residence_time.residence_time_retarded]) are parameters
    of the model too; what is assumed of them is stated where it is used. *)

From Stdlib Require Import QArith Qcanon String DecimalString.
From stdpp Require Import base tactics option numbers list strings.

Set Default Proof Using "Type".

(* ================================================================== *)
(** * Numbers *)
(* ================================================================== *)

(** float64: a finite value, plus or minus infinity, or NaN. *)
Inductive float : Type :=
  | Fin (q : Qc)
  | PInf
  | NInf
  | NaN.

Definition qc (n : Z) (d : positive) : Qc := Q2Qc (n # d).

Definition f0 : float := Fin (qc 0 1).
Definition f1 : float := Fin (qc 1 1).

Definition Qc_ltb (x y : Qc) : bool :=
  match (x ?= y)%Qc with Lt => true | _ => false end.
Definition Qc_eqb (x y : Qc) : bool :=
  match (x ?= y)%Qc with Eq => true | _ => false end.

Module F.

Definition isnan (x : float) : bool :=
  match x with NaN => true | _ => false end.

Definition isfinite (x : float) : bool :=
  match x with Fin _ => true | _ => false end.

Definition neg (x : float) : float :=
  match x with
  | Fin q => Fin (- q)%Qc
  | PInf => NInf
  | NInf => PInf
  | NaN => NaN
  end.

Definition add (x y : float) : float :=
  match x, y with
  | NaN, _ | _, NaN => NaN
  | Fin a, Fin b => Fin (a + b)%Qc
  | PInf, NInf | NInf, PInf => NaN
  | PInf, _ | _, PInf => PInf
  | NInf, _ | _, NInf => NInf
  end.

Definition sub (x y : float) : float := add x (neg y).

(** Sign of a finite value: [Lt] negative, [Eq] zero, [Gt] positive. *)
Definition sgn (q : Qc) : comparison := (q ?= qc 0 1)%Qc.

Definition mul (x y : float) : float :=
  match x, y with
  | NaN, _ | _, NaN => NaN
  | Fin a, Fin b => Fin (a * b)%Qc
  | Fin a, PInf | PInf, Fin a =>
      match sgn a with Eq => NaN | Gt => PInf | Lt => NInf end
  | Fin a, NInf | NInf, Fin a =>
      match sgn a with Eq => NaN | Gt => NInf | Lt => PInf end
  | PInf, PInf | NInf, NInf => PInf
  | PInf, NInf | NInf, PInf => NInf
  end.

(** IEEE division; the zero divisor is the positive zero. *)
Definition div (x y : float) : float :=
  match x, y with
  | NaN, _ | _, NaN => NaN
  | Fin a, Fin b =>
      match sgn b with
      | Eq => match sgn a with Eq => NaN | Gt => PInf | Lt => NInf end
      | _ => Fin (a / b)%Qc
      end
  | Fin _, (PInf | NInf) => f0
  | PInf, Fin b => match sgn b with Lt => NInf | _ => PInf end
  | NInf, Fin b => match sgn b with Lt => PInf | _ => NInf end
  | (PInf | NInf), (PInf | NInf) => NaN
  end.

(** [x < y]; every comparison with NaN is false. *)
Definition ltb (x y : float) : bool :=
  match x, y with
  | NaN, _ | _, NaN => false
  | Fin a, Fin b => Qc_ltb a b
  | NInf, (Fin _ | PInf) => true
  | Fin _, PInf => true
  | _, _ => false
  end.

Definition eqb (x y : float) : bool :=
  match x, y with
  | Fin a, Fin b => Qc_eqb a b
  | PInf, PInf | NInf, NInf => true
  | _, _ => false
  end.

Definition leb (x y : float) : bool := ltb x y || eqb x y.
Definition gtb (x y : float) : bool := ltb y x.
Definition geb (x y : float) : bool := leb y x.

(** Python's builtin [max(a, b)]: the first argument unless the second is
    strictly greater. *)
Definition py_max (a b : float) : float := if gtb b a then b else a.

Definition square (x : float) : float := mul x x.
Definition abs (x : float) : float :=
  match x with
  | Fin q => if Qc_ltb q (qc 0 1) then Fin (- q)%Qc else Fin q
  | PInf | NInf => PInf
  | NaN => NaN
  end.

(** [numpy.sum] of a one-dimensional array. *)
Definition sum (l : list float) : float := foldl add f0 l.

End F.

Infix "⊕" := F.add (at level 50, left associativity).
Infix "⊖" := F.sub (at level 50, left associativity).
Infix "⊗" := F.mul (at level 40, left associativity).
Infix "⊘" := F.div (at level 40, left associativity).

Global Instance float_eq_dec : EqDecision float.
Proof. solve_decision. Defined.

(* ================================================================== *)
(** * Exceptions and results *)
(* ================================================================== *)

Inductive exn : Type :=
  | ValueError (msg : string)
  | IndexError
  | IndexingError
  | OutOfBoundsTimedelta
  | OutOfBoundsDatetime
  | LinAlgError (msg : string)
  | OtherError (cls : string).

Inductive result (A : Type) : Type :=
  | Ok (a : A)
  | Raise (e : exn).
Arguments Ok {A} a.
Arguments Raise {A} e.

Global Instance result_ret : MRet result := fun A a => Ok a.
Global Instance result_bind : MBind result := fun A B f m =>
  match m with
  | Ok a => f a
  | Raise e => Raise e
  end.

Global Instance result_fmap : FMap result := fun A B f m =>
  match m with
  | Ok a => Ok (f a)
  | Raise e => Raise e
  end.

(* ================================================================== *)
(** * Arrays, series and the pandas / numpy primitives the code uses *)
(* ================================================================== *)

Abbreviation Timestamp := Qc (only parsing).
Abbreviation Timedelta := Qc (only parsing).

(** The time arithmetic of line 150, as pandas performs it on tick counts:
    [to_timedelta_D] is [pd.to_timedelta(x, unit="D")] on one finite number
    of days (the Timedelta it returns is the rounded value, and a value out
    of range raises); [sub_timedelta] is the subtraction of a Timedelta from
    a Timestamp of the index (a result out of range raises).  How pandas
    rounds and what it refuses depends on its version and on the resolution
    of the index, so the two operations are parameters: a statement that
    needs something of them says so. *)
Record pandas_time : Type := mk_pandas_time {
  to_timedelta_D : Qc → result Timedelta;
  sub_timedelta : Timestamp → Timedelta → result Timestamp
}.

(** [pd.to_timedelta(1.0, unit="D")]: the Timedelta of one day. *)
Definition one_day : Timedelta := qc 1 1.

(** An instance of the time arithmetic on nanosecond ticks: the conversion
    truncates to whole nanoseconds, and both operations refuse a value that
    does not fit a signed 64-bit tick count. *)
Definition ns_per_day : Z := 86400000000000.
Definition int64_max : Z := 9223372036854775807.
Definition to_ticks (x : Qc) : Z := (Qnum x * ns_per_day ÷ Z.pos (Qden x))%Z.
Definition of_ticks (n : Z) : Qc := Q2Qc (n # 86400000000000).
Definition time_ns : pandas_time :=
  mk_pandas_time
    (fun x =>
       if (Z.abs (to_ticks x) <=? int64_max)%Z then Ok (of_ticks (to_ticks x))
       else Raise OutOfBoundsTimedelta)
    (fun t td =>
       if (Z.abs (to_ticks (t - td)) <=? int64_max)%Z then Ok (t - td)%Qc
       else Raise OutOfBoundsDatetime).

(** A pandas Series with a DatetimeIndex: index and values have the same
    length by construction. *)
Definition Series : Type := list (Timestamp * float).
Definition index (s : Series) : list Timestamp := s.*1.
Definition values (s : Series) : list float := s.*2.

(** [pd.Series(data=..., index=...)]: the lengths must agree. *)
Definition pd_Series (data : list float) (idx : list Timestamp) : result Series :=
  if decide (length data = length idx) then Ok (zip idx data)
  else Raise (ValueError "Length of values does not match length of index").

(** A two-dimensional numpy array with its shape. *)
Record ndarray : Type := mk_ndarray {
  nrows : nat;
  ncols : nat;
  rows : list (list float)
}.

(** [np.zeros((m, n))] *)
Definition np_zeros2 (m n : nat) : ndarray :=
  mk_ndarray m n (replicate m (replicate n f0)).

(** [np.zeros(n)] *)
Definition np_zeros (n : nat) : list float := replicate n f0.

(** [a[k:]] on the first axis. *)
Definition drop_rows (k : nat) (a : ndarray) : ndarray :=
  mk_ndarray (nrows a - k) (ncols a) (drop k (rows a)).

Definition column (j : nat) (rs : list (list float)) : list float :=
  (fun r => default f0 (r !! j)) <$> rs.

(** [a.conj().T] for a real array. *)
Definition transpose (a : ndarray) : ndarray :=
  mk_ndarray (ncols a) (nrows a) ((fun j => column j (rows a)) <$> seq 0 (ncols a)).

Definition dot (u v : list float) : float :=
  F.sum (zip_with F.mul u v).

(** [a @ x] for a matrix and a vector: the inner dimensions must agree. *)
Definition matvec (a : ndarray) (x : list float) : result (list float) :=
  if decide (ncols a = length x) then Ok ((fun r => dot r x) <$> rows a)
  else Raise (ValueError "matmul: Input operand 1 has a mismatch in its core dimension 0").

(** Elementwise [u + v] of one-dimensional arrays, with numpy's broadcasting
    of a length-one operand. *)
Definition vadd (u v : list float) : result (list float) :=
  if decide (length u = length v) then Ok (zip_with F.add u v)
  else match u, v with
       | [a], _ => Ok (F.add a <$> v)
       | _, [b] => Ok ((fun a => a ⊕ b) <$> u)
       | _, _ => Raise (ValueError "operands could not be broadcast together")
       end.

(** [np.isnan(a).any()] *)
Definition any_isnan (a : ndarray) : bool :=
  existsb (existsb F.isnan) (rows a).

(** [Index.searchsorted(key)] (side="left") is numpy's binary search:
    [while (min < max) { mid = min + ((max - min) >> 1);
       if (arr[mid] < key) min = mid + 1; else max = mid; } return min]. *)
Fixpoint binsearch_left (fuel : nat) (arr : list Timestamp) (key : Timestamp)
    (min_idx max_idx : nat) : nat :=
  match fuel with
  | O => min_idx
  | S fuel' =>
      if min_idx <? max_idx then
        let mid := min_idx + (max_idx - min_idx) / 2 in
        match arr !! mid with
        | Some a =>
            if Qc_ltb a key then binsearch_left fuel' arr key (mid + 1) max_idx
            else binsearch_left fuel' arr key min_idx mid
        | None => min_idx
        end
      else min_idx
  end.

Definition searchsorted (arr : list Timestamp) (key : Timestamp) : nat :=
  binsearch_left (length arr) arr key 0 (length arr).

(** Strictly increasing timestamps, as a check and as a property. *)
Fixpoint increasingb (l : list Timestamp) : bool :=
  match l with
  | a :: (b :: _) as t => Qc_ltb a b && increasingb t
  | _ => true
  end.

Definition increasing (l : list Timestamp) : Prop :=
  ∀ i j a b, i < j → l !! i = Some a → l !! j = Some b → (a < b)%Qc.

Fixpoint insert_sorted (x : float) (l : list float) : list float :=
  match l with
  | [] => [x]
  | y :: t => if F.leb x y then x :: l else y :: insert_sorted x t
  end.

Definition sort_floats (l : list float) : list float :=
  foldr insert_sorted [] l.

(** [Series.median()]: NaN entries are skipped; NaN when nothing is left. *)
Definition median (l : list float) : float :=
  let s := sort_floats (filter (fun x => F.isnan x = false) l) in
  let n := length s in
  if n =? 0 then NaN
  else if Nat.odd n then default NaN (s !! (n / 2))
  else (default NaN (s !! (n / 2 - 1)) ⊕ default NaN (s !! (n / 2))) ⊘ Fin (qc 2 1).

(** [Series.clip(lower=lo)] on one entry: a NaN bound clips nothing and a NaN
    entry stays NaN. *)
Definition clip_lower (lo x : float) : float :=
  if F.isnan lo then x
  else if F.isnan x then x
  else if F.geb x lo then x else lo.

(* ================================================================== *)
(** * deposition_coefficients *)
(* ================================================================== *)

(** One row of the [df_out] table. *)
Record df_row : Type := mk_df_row {
  row_date : Timestamp;                       (* index: extraction date *)
  row_rt : Qc;                                (* "rt" *)
  row_flow : float;                           (* "flow" *)
  row_dates_infiltration_retarded : Timestamp;(* "dates_infiltration_retarded" *)
  row_darea : float                           (* "darea" *)
}.

Definition set_row_flow (q : float) (r : df_row) : df_row :=
  mk_df_row (row_date r) (row_rt r) q (row_dates_infiltration_retarded r) (row_darea r).

(** [rt[valid_rt_mask]] next to [flow[valid_rt_mask]]: the entries of the
    flow series whose residence time is not missing, in index order. *)
Definition valid_entries (flow : Series) (rt : list (option Qc))
    : list (Timestamp * float * Qc) :=
  omap (fun e : Timestamp * float * option Qc => (fun r => (e.1, r)) <$> e.2) (zip flow rt).

(** One row of lines 149-153: the residence time is converted to a
    Timedelta and subtracted from the date; either step may raise. *)
Definition make_row (tm : pandas_time) (porosity thickness retardation_factor : float)
    (e : Timestamp * float * Qc) : result df_row :=
  td ← to_timedelta_D tm e.2;
  t_inf ← sub_timedelta tm e.1.1 td;
  Ok (mk_df_row e.1.1 e.2 e.1.2 t_inf
        (e.1.2 ⊘ (retardation_factor ⊗ porosity ⊗ thickness))).

(** Lines 149-153: the table with the infiltration date and the area.  The
    first entry that cannot be converted raises its error. *)
Definition make_df_out (tm : pandas_time) (flow : Series) (rt : list (option Qc))
    (porosity thickness retardation_factor : float) : result (list df_row) :=
  mapM (make_row tm porosity thickness retardation_factor) (valid_entries flow rt).

(** [row[lo:hi] = v] *)
Definition slice_assign (lo hi : nat) (v : float) (row : list float) : list float :=
  imap (fun j x => if (lo <=? j) && (j <? hi) then v else x) row.

(** The loop of lines 160-166 over [enumerate(df_out.iterrows())], with the
    array [dt] threaded through.  Reading [flow.index[itinf]] past the end
    of the index raises IndexError. *)
Fixpoint fill_dt (flow_index : list Timestamp) (df_out : list df_row)
    (iout : nat) (dt : ndarray) : result ndarray :=
  match df_out with
  | [] => Ok dt
  | row :: rest =>
      let itinf := searchsorted flow_index (row_dates_infiltration_retarded row) in
      let itextr := searchsorted flow_index (row_date row) in
      let dt1 := mk_ndarray (nrows dt) (ncols dt)
                   (alter (slice_assign itinf (itextr + 1) f1) iout (rows dt)) in
      match flow_index !! itinf with
      | None => Raise IndexError
      | Some t =>
          let w := Fin ((- (row_dates_infiltration_retarded row - t)) / one_day)%Qc in
          let dt2 := mk_ndarray (nrows dt1) (ncols dt1)
                       (alter (<[itinf := w]>) iout (rows dt1)) in
          fill_dt flow_index rest (S iout) dt2
      end
  end.

(** [scale[:, None] * dt] *)
Definition scale_rows (scale : list float) (dt : ndarray) : ndarray :=
  mk_ndarray (nrows dt) (ncols dt)
    (zip_with (fun c r => F.mul c <$> r) scale (rows dt)).

Section Coefficients.

Variable tm : pandas_time.

(** The residence-time provider, [residence_time_retarded(flow,
    aquifer_pore_volume, retardation_factor=...)]: a series aligned to the
    flow index, in days, [None] where the residence time is missing. *)
Variable residence_time_retarded : Series → float → float → list (option Qc).

(** Lines 147-170: everything up to the NaN check. *)
Definition scaled_coefficients (flow : Series)
    (aquifer_pore_volume porosity thickness retardation_factor : float)
    : result (list df_row * ndarray) :=
  let rt := residence_time_retarded flow aquifer_pore_volume retardation_factor in
  if decide (length rt = length flow) then
    df_out ← make_df_out tm flow rt porosity thickness retardation_factor;
    let nin := length flow in
    let nout := length df_out in
    dt ← fill_dt (index flow) df_out 0 (np_zeros2 nout nin);
    let flow_floor := median (values flow) ⊘ Fin (qc 100 1) in
    let df_out := (fun r => set_row_flow (clip_lower flow_floor (row_flow r)) r) <$> df_out in
    let coeff := scale_rows ((fun r => row_darea r ⊘ row_flow r) <$> df_out) dt in
    Ok (df_out, coeff)
  else Raise IndexingError.

Definition deposition_coefficients (flow : Series)
    (aquifer_pore_volume porosity thickness retardation_factor : float)
    : result (list df_row * ndarray) :=
  '(df_out, coeff) ← scaled_coefficients flow aquifer_pore_volume porosity
                        thickness retardation_factor;
  if any_isnan coeff then Raise (ValueError "Coefficients contain nan values.")
  else Ok (df_out, coeff).

End Coefficients.

(** A small daily series: four days of constant flow 100; with a pore
    volume of 150 the residence time is 1.5 days, and it is missing on the
    first day. *)
Definition day (n : Z) : Timestamp := qc n 1.
Definition flow4 : Series :=
  [(day 0, Fin (qc 100 1)); (day 1, Fin (qc 100 1));
   (day 2, Fin (qc 100 1)); (day 3, Fin (qc 100 1))].
Definition rt4 (_ : Series) (_ _ : float) : list (option Qc) :=
  [None; Some (qc 3 2); Some (qc 3 2); Some (qc 3 2)].

(* ================================================================== *)
(** * nullspace, compute_deposition, compute_concentration *)
(* ================================================================== *)

(** Calls into the external numerical libraries, recorded in the order in
    which they are made. *)
Inductive call : Type :=
  | CallLstsq
  | CallSvd
  | CallMinimize.

(** A computation that may raise, together with the calls it made. *)
Record traced (A : Type) : Type := mk_traced {
  trace : list call;
  outcome : result A
}.
Arguments mk_traced {A} trace outcome.
Arguments trace {A} t.
Arguments outcome {A} t.

Global Instance traced_ret : MRet traced := fun A a => mk_traced [] (Ok a).
Global Instance traced_bind : MBind traced := fun A B f m =>
  match outcome m with
  | Ok a => let r := f a in mk_traced (trace m ++ trace r) (outcome r)
  | Raise e => mk_traced (trace m) (Raise e)
  end.

Definition lift {A} (r : result A) : traced A := mk_traced [] r.
Definition raise {A} (e : exn) : traced A := mk_traced [] (Raise e).
(** A call into an external routine: it is recorded, and its error, if
    any, is raised. *)
Definition external {A} (c : call) (r : result A) : traced A := mk_traced [c] r.

(** [scipy.optimize.OptimizeResult], the fields the code reads. *)
Record OptimizeResult : Type := mk_OptimizeResult {
  success : bool;
  message : string;
  x : list float
}.

(** An objective [objective(x, xLS, colsOfNullspace)]. *)
Definition objective_fn : Type := list float → list float → ndarray → result float.

(** [sols[1:] - sols[:-1]] *)
Definition first_differences (sols : list float) : list float :=
  zip_with F.sub (drop 1 sols) (take (length sols - 1) sols).

(** Lines 61-63 *)
Definition objective_squared_lengths : objective_fn := fun x xLS colsOfNullspace =>
  nx ← matvec colsOfNullspace x;
  sols ← vadd xLS nx;
  Ok (F.sum (F.square <$> first_differences sols)).

(** Lines 76-78 *)
Definition objective_summed_lengths : objective_fn := fun x xLS colsOfNullspace =>
  nx ← matvec colsOfNullspace x;
  sols ← vadd xLS nx;
  Ok (F.sum (F.abs <$> first_differences sols)).

(** The dynamically typed argument [nullspace_objective]: a string, a
    callable, or any other value (with its [str()]). *)
Inductive py_objective : Type :=
  | ObjStr (s : string)
  | ObjCallable (f : objective_fn)
  | ObjOther (str : string).

Definition py_str (o : py_objective) : string :=
  match o with
  | ObjStr s => s
  | ObjCallable _ => "<function>"
  | ObjOther s => s
  end.

(** [nullspace_objective == name] for a string literal [name]. *)
Definition objective_is (o : py_objective) (name : string) : bool :=
  match o with
  | ObjStr s => bool_decide (s = name)
  | _ => false
  end.

Definition str_of_nat (n : nat) : string := NilZero.string_of_uint (Nat.to_uint n).

Definition atol_default : float := Fin (qc 1 10000000000000).
Definition rtol_default : float := f0.

Definition length_mismatch_message (n m : nat) : string :=
  "Length of cout (" +:+ str_of_nat n
  +:+ ") should be equal to the number of rows in coeff ("
  +:+ str_of_nat m +:+ ")" +:+ "Either ".

(** The external routines: each returns its value or raises. *)
Definition lstsq_fn : Type := ndarray → list float → result (list float).
Definition svd_fn : Type := ndarray → result (ndarray * list float * ndarray).
Definition minimize_fn : Type :=
  objective_fn → list float → list float * ndarray → result OptimizeResult.

Section Inversion.

Variable tm : pandas_time.

Variable residence_time_retarded : Series → float → float → list (option Qc).

(** [np.linalg.lstsq(a, b, rcond=None)[0]] *)
Variable lstsq : lstsq_fn.

(** [np.linalg.svd(a)]: [(u, s, vh)] *)
Variable svd : svd_fn.

(** [scipy.optimize.minimize(fun, x0=..., args=(xLS, N), method="BFGS")] *)
Variable minimize : minimize_fn.

(** Lines 215-219.  [np.atleast_2d] is the identity on a two-dimensional
    array; [s[0]] raises IndexError on an empty [s]. *)
Definition nullspace (coefficients : ndarray) (atol rtol : float) : traced ndarray :=
  '(_, s, vh) ← external CallSvd (svd coefficients);
  match s with
  | [] => raise IndexError
  | s0 :: _ =>
      let tol := F.py_max atol (rtol ⊗ s0) in
      let nnz := length (filter (fun sv => F.geb sv tol = true) s) in
      mret (transpose (drop_rows nnz vh))
  end.

(** Lines 43-90 *)
Definition compute_deposition (cout flow : Series)
    (aquifer_pore_volume porosity thickness retardation_factor : float)
    (nullspace_objective : py_objective) : traced Series :=
  '(_, coeff) ← lift (deposition_coefficients tm residence_time_retarded flow
                        aquifer_pore_volume porosity thickness retardation_factor);
  if decide (length cout ≠ nrows coeff) then
    raise (ValueError (length_mismatch_message (length cout) (nrows coeff)))
  else
    deposition_ls ← external CallLstsq (lstsq coeff (values cout));
    colsOfNullspace ← nullspace coeff atol_default rtol_default;
    let nullrank := ncols colsOfNullspace in
    let deposition_0 := np_zeros nullrank in
    res ← external CallMinimize
            (minimize objective_squared_lengths deposition_0 (deposition_ls, colsOfNullspace));
    if negb (success res) then
      raise (ValueError ("Optimization failed: " +:+ message res))
    else
      res ← (if negb (objective_is nullspace_objective "squared_lengths") then
               if objective_is nullspace_objective "summed_lengths" then
                 external CallMinimize
                   (minimize objective_summed_lengths (x res) (deposition_ls, colsOfNullspace))
               else
                 match nullspace_objective with
                 | ObjCallable f =>
                     external CallMinimize
                       (minimize f (x res) (deposition_ls, colsOfNullspace))
                 | _ =>
                     raise (ValueError ("Unknown nullspace objective: "
                                        +:+ py_str nullspace_objective))
                 end
             else mret res);
      nx ← lift (matvec colsOfNullspace (x res));
      deposition_data ← lift (vadd deposition_ls nx);
      lift (pd_Series deposition_data (index flow)).

(** Lines 115-120 *)
Definition compute_concentration (deposition flow : Series)
    (aquifer_pore_volume porosity thickness retardation_factor : float)
    : result Series :=
  '(_, coeff) ← deposition_coefficients tm residence_time_retarded flow
                  aquifer_pore_volume porosity thickness retardation_factor;
  let rt := residence_time_retarded flow aquifer_pore_volume retardation_factor in
  cd ← matvec coeff (values deposition);
  pd_Series cd ((valid_entries flow rt).*1.*1).

End Inversion.

(* ================================================================== *)
(** * Deciding equalities of concrete values *)
(* ================================================================== *)

Global Instance exn_eq_dec : EqDecision exn.
Proof. solve_decision. Defined.
Global Instance result_eq_dec {A} `{EqDecision A} : EqDecision (result A).
Proof. solve_decision. Defined.
Global Instance ndarray_eq_dec : EqDecision ndarray.
Proof. solve_decision. Defined.
Global Instance df_row_eq_dec : EqDecision df_row.
Proof. solve_decision. Defined.
Global Instance call_eq_dec : EqDecision call.
Proof. solve_decision. Defined.
Global Instance traced_eq_dec {A} `{EqDecision A} : EqDecision (traced A).
Proof. solve_decision. Defined.

(* ================================================================== *)
(** * The statements: rows of [dt] and of the coefficient matrix *)
(* ================================================================== *)

(** What one iteration does to its own row, given the grid timestamp [t]
    read at [itinf]. *)
Definition row_update (flow_index : list Timestamp) (row : df_row) (t : Timestamp)
    (r : list float) : list float :=
  let itinf := searchsorted flow_index (row_dates_infiltration_retarded row) in
  let itextr := searchsorted flow_index (row_date row) in
  <[itinf := Fin ((- (row_dates_infiltration_retarded row - t)) / one_day)%Qc]>
    (slice_assign itinf (itextr + 1) f1 r).

(** The row as the specification describes it: the grid point [i_inf] at or
    before the infiltration timestamp, weight 1 on the columns after it up
    to [i_extr], and [1 - offset] on column [i_inf]. *)
Definition row_weights_as_specified (flow_index : list Timestamp) (row : df_row)
    (r : list float) : Prop :=
  let t_inf := row_dates_infiltration_retarded row in
  let i_inf := searchsorted flow_index t_inf in
  let i_extr := searchsorted flow_index (row_date row) in
  ∃ t, flow_index !! i_inf = Some t ∧
       (t <= t_inf)%Qc ∧
       (∀ j, i_inf < j ≤ i_extr → r !! j = Some f1) ∧
       r !! i_inf = Some (Fin (1 - (t_inf - t))%Qc).

(** The row as the code builds it: [i_inf] is the leftmost insertion point
    (the first grid point at or after the infiltration timestamp), column
    [i_inf] holds the time from the infiltration timestamp to that grid
    point, the columns after it up to [i_extr] hold 1 and all others 0. *)
Definition row_weights (flow_index : list Timestamp) (row : df_row)
    (r : list float) : Prop :=
  let t_inf := row_dates_infiltration_retarded row in
  let i_inf := searchsorted flow_index t_inf in
  let i_extr := searchsorted flow_index (row_date row) in
  length r = length flow_index ∧
  flow_index !! i_extr = Some (row_date row) ∧
  (∀ j t, j < i_inf → flow_index !! j = Some t → (t < t_inf)%Qc) ∧
  (∃ t, flow_index !! i_inf = Some t ∧ (t_inf <= t)%Qc ∧
        r !! i_inf = Some (Fin (t - t_inf)%Qc)) ∧
  (∀ j, i_inf < j ≤ i_extr → r !! j = Some f1) ∧
  (∀ j, j < length flow_index → j ≠ i_inf → ¬ (i_inf < j ≤ i_extr) →
        r !! j = Some f0).

(** The table and the array of the four-day example. *)
Definition row4_1 : df_row :=
  mk_df_row (day 2) (qc 3 2) (Fin (qc 100 1)) (qc 1 2) (Fin (qc 100 1)).

Definition df4 : list df_row :=
  [mk_df_row (day 1) (qc 3 2) (Fin (qc 100 1)) (qc (-1) 2) (Fin (qc 100 1));
   row4_1;
   mk_df_row (day 3) (qc 3 2) (Fin (qc 100 1)) (qc 3 2) (Fin (qc 100 1))].

Definition dt4 : ndarray :=
  mk_ndarray 3 4
    [[Fin (qc 1 2); f1; f0; f0];
     [f0; Fin (qc 1 2); f1; f0];
     [f0; f0; Fin (qc 1 2); f1]].

(** The timestamps of the flow index whose residence time is not missing,
    in index order. *)
Definition retained_timestamps (flow : Series) (rt : list (option Qc)) : list Timestamp :=
  (filter (fun e : Timestamp * option Qc => is_Some e.2) (zip (index flow) rt)).*1.

(** The guarantee as the specification words it, with "no row is entirely
    zero". *)
Definition coefficient_rows_as_specified (tm : pandas_time)
    (rtp : Series → float → float → list (option Qc)) (flow : Series)
    (apv p th R : float) : Prop :=
  ∀ df coeff,
    deposition_coefficients tm rtp flow apv p th R = Ok (df, coeff) →
    row_date <$> df = retained_timestamps flow (rtp flow apv R) ∧
    nrows coeff = length (retained_timestamps flow (rtp flow apv R)) ∧
    ∀ r, r ∈ rows coeff → ∃ x, x ∈ r ∧ x ≠ f0.

(** What the code guarantees: one row per retained timestamp, in index
    order, row [k] being the weights [dtr] of the [k]-th retained timestamp
    (with flow [q]) scaled by its area / flow.  Such a row [r] has a
    non-zero entry when the infiltration timestamp stored in the table is
    strictly before the date and the scale factor is not zero; it is
    entirely zero when the infiltration timestamp is the date, and when the
    flow [q] is zero. *)
Definition coefficient_rows (flow : Series) (rt : list (option Qc))
    (porosity thickness retardation_factor : float)
    (df : list df_row) (coeff : ndarray) : Prop :=
  row_date <$> df = retained_timestamps flow rt ∧
  nrows coeff = length (retained_timestamps flow rt) ∧
  length (rows coeff) = nrows coeff ∧
  ncols coeff = length flow ∧
  ∀ k row, df !! k = Some row →
    ∃ dtr r q,
      valid_entries flow rt !! k = Some (row_date row, q, row_rt row) ∧
      row_darea row = q ⊘ (retardation_factor ⊗ porosity ⊗ thickness) ∧
      row_flow row = clip_lower (median (values flow) ⊘ Fin (qc 100 1)) q ∧
      row_weights (index flow) row dtr ∧
      rows coeff !! k = Some r ∧
      r = F.mul (row_darea row ⊘ row_flow row) <$> dtr ∧
      ((row_dates_infiltration_retarded row < row_date row)%Qc →
       row_darea row ⊘ row_flow row ≠ f0 → ∃ x, x ∈ r ∧ x ≠ f0) ∧
      (row_dates_infiltration_retarded row = row_date row → ∀ x, x ∈ r → x = f0) ∧
      (q = f0 → ∀ x, x ∈ r → x = f0).

(** Four days on which the well is stopped on the last day (flow 0). *)
Definition flow_stop : Series :=
  [(day 0, Fin (qc 100 1)); (day 1, Fin (qc 100 1));
   (day 2, Fin (qc 100 1)); (day 3, Fin (qc 0 1))].
Definition rt_stop (_ : Series) (_ _ : float) : list (option Qc) :=
  [None; Some (qc 3 2); Some (qc 3 2); Some (qc 5 2)].

(** The rejection as the specification words it: any non-finite entry of
    the scaled matrix makes [deposition_coefficients] raise. *)
Definition nonfinite_rejected_as_specified (tm : pandas_time)
    (rtp : Series → float → float → list (option Qc)) (flow : Series)
    (apv p th R : float) : Prop :=
  ∀ df coeff,
    scaled_coefficients tm rtp flow apv p th R = Ok (df, coeff) →
    (∃ r x, r ∈ rows coeff ∧ x ∈ r ∧ F.isfinite x = false) →
    ∃ e, deposition_coefficients tm rtp flow apv p th R = Raise e.

(** Three days of flow 1 and a pore volume of 2.5: only the last day is
    retained, with a residence time of 2.5 days. *)
Definition flow3 : Series :=
  [(day 0, Fin (qc 1 1)); (day 1, Fin (qc 1 1)); (day 2, Fin (qc 1 1))].
Definition rt3 (_ : Series) (_ _ : float) : list (option Qc) :=
  [None; None; Some (qc 5 2)].

(** The same three days with a residence time of 1e-15 days on the last
    one: less than one nanosecond. *)
Definition rt_sub_tick (_ : Series) (_ _ : float) : list (option Qc) :=
  [None; None; Some (qc 1 1000000000000000)].

(* ================================================================== *)
(** * The statements: nullspace *)
(* ================================================================== *)

Definition orthonormal (vs : list (list float)) : Prop :=
  ∀ i j u v, vs !! i = Some u → vs !! j = Some v →
    dot u v = if decide (i = j) then f1 else f0.

(** Singular values as LAPACK returns them: in descending order. *)
Definition descending (s : list float) : Prop :=
  ∀ i j a b, i ≤ j → s !! i = Some a → s !! j = Some b → F.geb a b = true.

(** The columns of a matrix given by its rows. *)
Definition columns (a : ndarray) : list (list float) :=
  (fun k => column k (rows a)) <$> seq 0 (ncols a).

Definition well_formed (a : ndarray) : Prop :=
  length (rows a) = nrows a ∧ ∀ r, r ∈ rows a → length r = ncols a.

(** The basis as the specification words it: every right singular vector
    whose singular value is at or below the tolerance is a column. *)
Definition nullspace_as_specified (s : list float) (vh : ndarray) (tol : float)
    (N : ndarray) : Prop :=
  ∀ i sv v, s !! i = Some sv → rows vh !! i = Some v →
    F.leb sv tol = true → v ∈ columns N.

(** The basis as the code returns it: the columns are the rows [vh[nnz:]],
    in order, where [nnz] counts the singular values for which [s >= tol]
    holds.  For descending singular values these are the vectors whose
    singular value fails the test [s >= tol], together with the rows of
    [vh] that have no singular value; failing the test means being strictly
    below [tol] when [tol] is a number, and every singular value fails it
    when [tol] is NaN. *)
Definition nullspace_basis (s : list float) (vh : ndarray) (tol : float)
    (N : ndarray) : Prop :=
  let nnz := length (filter (fun sv => F.geb sv tol = true) s) in
  nrows N = ncols vh ∧
  ncols N = nrows vh - nnz ∧
  columns N = drop nnz (rows vh) ∧
  (descending s → ∀ i sv, s !! i = Some sv → (nnz ≤ i ↔ F.geb sv tol = false)) ∧
  (descending s → F.isnan tol = false →
   ∀ i sv, s !! i = Some sv → (nnz ≤ i ↔ F.ltb sv tol = true)) ∧
  (F.isnan tol = true → nnz = 0) ∧
  (orthonormal (rows vh) → orthonormal (columns N)).

(** [u @ diag(s) @ vh], to check a decomposition against its matrix. *)
Definition usvh (u : ndarray) (s : list float) (vh : ndarray) : ndarray :=
  mk_ndarray (nrows u) (ncols vh)
    ((fun ui => (fun j => dot (zip_with F.mul ui s) (column j (rows vh)))
                <$> seq 0 (ncols vh)) <$> rows u).

(** The one-row matrix [[1/2, 1, 1]] and its decomposition. *)
Definition a13 : ndarray := mk_ndarray 1 3 [[Fin (qc 1 2); f1; f1]].
Definition vh13 : ndarray :=
  mk_ndarray 3 3
    [[Fin (qc 1 3); Fin (qc 2 3); Fin (qc 2 3)];
     [Fin (qc 2 3); Fin (qc 1 3); Fin (qc (-2) 3)];
     [Fin (qc 2 3); Fin (qc (-2) 3); Fin (qc 1 3)]].
Definition svd13 : svd_fn := fun _ =>
  Ok (mk_ndarray 1 1 [[f1]], [Fin (qc 3 2)], vh13).

(** The diagonal matrix diag(1, 1e-13): its second singular value is equal
    to the default tolerance. *)
Definition a_tol : ndarray := mk_ndarray 2 2 [[f1; f0]; [f0; atol_default]].
Definition eye2 : ndarray := mk_ndarray 2 2 [[f1; f0]; [f0; f1]].
Definition svd_tol : svd_fn := fun _ =>
  Ok (eye2, [f1; atol_default], eye2).

(* ================================================================== *)
(** * The statements: compute_deposition *)
(* ================================================================== *)

(** A provider under which no day has a residence time, and a stand-in
    [svd] that has the shapes of numpy's. *)
Definition rt_missing (flow : Series) (_ _ : float) : list (option Qc) :=
  replicate (length flow) None.
Definition svd_shapes : svd_fn := fun a =>
  Ok (np_zeros2 (nrows a) (nrows a), replicate (nrows a `min` ncols a) f0,
      np_zeros2 (ncols a) (ncols a)).
Definition lstsq_zero : lstsq_fn := fun a _ => Ok (np_zeros (ncols a)).
Definition minimize_at_start : minimize_fn := fun _ x0 _ =>
  Ok (mk_OptimizeResult true "Optimization terminated successfully." x0).

(** The matrix [nullspace] returns for a decomposition with at least one
    singular value. *)
Definition kept_vectors (s0 : float) (s : list float) (vh : ndarray)
    (atol rtol : float) : ndarray :=
  transpose
    (drop_rows
       (length (filter (fun sv => F.geb sv (F.py_max atol (rtol ⊗ s0)) = true) (s0 :: s)))
       vh).

(** Lines 89-90: the series built from an optimizer result [w]. *)
Definition assemble (deposition_ls : list float) (colsOfNullspace : ndarray)
    (w : list float) (idx : list Timestamp) : result Series :=
  nx ← matvec colsOfNullspace w;
  deposition_data ← vadd deposition_ls nx;
  pd_Series deposition_data idx.

(** The run after a second minimization (line 80 or 83) has been called:
    its error if it raised, else the series built from its weights,
    whatever it reports. *)
Definition after_second_minimize (deposition_ls : list float)
    (colsOfNullspace : ndarray) (idx : list Timestamp)
    (r : result OptimizeResult) : traced Series :=
  mk_traced [CallLstsq; CallSvd; CallMinimize; CallMinimize]
    (res ← r; assemble deposition_ls colsOfNullspace (x res) idx).

(** The minimum-norm least-squares solution of a one-row system. *)
Definition lstsq_row_value (a : ndarray) (b : list float) : list float :=
  match rows a, b with
  | [r], [c] => (fun v => v ⊗ c ⊘ dot r r) <$> r
  | _, _ => np_zeros (ncols a)
  end.
Definition lstsq_row : lstsq_fn := fun a b => Ok (lstsq_row_value a b).

Definition cout3 : Series := [(day 2, Fin (qc 10 1))].

(** The optimizer on this input: the smoothest member of the solution
    family is the constant series 4, reached at the weights (4/3, 4/3). *)
Definition minimize_smooth : minimize_fn := fun _ _ _ =>
  Ok (mk_OptimizeResult true "Optimization terminated successfully."
        [Fin (qc 4 3); Fin (qc 4 3)]).

(** An optimizer that succeeds from the zero start and stalls, unconverged,
    when started anywhere else. *)
Definition minimize_stalls : minimize_fn := fun _ x0 _ =>
  if decide (x0 = [f0; f0]) then
    Ok (mk_OptimizeResult true "Optimization terminated successfully."
          [Fin (qc 4 3); Fin (qc 4 3)])
  else
    Ok (mk_OptimizeResult false
          "Desired error not necessarily achieved due to precision loss." [f1; f1]).

(** The round trip as the specification words it: whatever deposition
    [cout] was predicted from, inverting [cout] gives a series whose
    prediction is [cout] again. *)
Definition round_trip_as_specified (tm : pandas_time)
    (rtp : Series → float → float → list (option Qc))
    (lstsq : lstsq_fn) (svd : svd_fn) (minimize : minimize_fn)
    (flow : Series) (apv p th R : float) (obj : py_objective) : Prop :=
  ∀ deposition cout,
    compute_concentration tm rtp deposition flow apv p th R = Ok cout →
    ∃ dep,
      outcome (compute_deposition tm rtp lstsq svd minimize cout flow apv p th R obj) = Ok dep ∧
      compute_concentration tm rtp dep flow apv p th R = Ok cout.

(** The error as the specification words it: raised before any
    minimization has run. *)
Definition unknown_objective_as_specified (obj : py_objective) (run : traced Series) : Prop :=
  outcome run = Raise (ValueError ("Unknown nullspace objective: " +:+ py_str obj)) ∧
  CallMinimize ∉ trace run.

(** Two days of flow 1 and a pore volume of 1/2, both days retained: the
    matrix is [[1/2, 0], [0, 1/2]]. *)
Definition flow2 : Series := [(day 0, Fin (qc 1 1)); (day 1, Fin (qc 1 1))].
Definition rt2 (_ : Series) (_ _ : float) : list (option Qc) :=
  [Some (qc 1 2); Some (qc 1 2)].
Definition a22 : ndarray := mk_ndarray 2 2 [[Fin (qc 1 2); f0]; [f0; Fin (qc 1 2)]].
Definition svd22 : svd_fn := fun _ =>
  Ok (eye2, [Fin (qc 1 2); Fin (qc 1 2)], eye2).
Definition lstsq22 : lstsq_fn := fun _ b =>
  Ok ((fun c => c ⊘ Fin (qc 1 2)) <$> b).
Definition cout2 : Series := [(day 0, Fin (qc 3 1)); (day 1, Fin (qc 5 1))].

(** BFGS on an empty start: the norm of the empty gradient is the maximum
    of an empty array, which numpy refuses with a ValueError.  On any other
    start this stand-in stays where it is. *)
Definition minimize_bfgs : minimize_fn := fun _ x0 _ =>
  match x0 with
  | [] => Raise (ValueError
                   "zero-size array to reduction operation maximum which has no identity")
  | _ => Ok (mk_OptimizeResult true "Optimization terminated successfully." x0)
  end.

(* ================================================================== *)
(** * Linear algebra on finite values *)
(* ================================================================== *)

Definition finite (v : list float) : Prop := Forall (fun a => F.isfinite a = true) v.
Definition finite_matrix (a : ndarray) : Prop := Forall finite (rows a).

Definition fin_rows (qs : list (list Qc)) : list (list float) :=
  (fun q : list Qc => Fin <$> q) <$> qs.

(** The exact counterparts of [dot] and [column]. *)
Fixpoint qdot (u v : list Qc) : Qc :=
  match u, v with
  | a :: u', b :: v' => (a * b + qdot u' v')%Qc
  | _, _ => 0%Qc
  end.

Definition qcolumn (j : nat) (rs : list (list Qc)) : list Qc :=
  (fun r => default 0%Qc (r !! j)) <$> rs.

(** [|| a @ x - b ||^2], the quantity [lstsq] minimises. *)
Definition residual_sq (a : ndarray) (x b : list float) : float :=
  F.sum (F.square <$> zip_with F.sub ((fun r => dot r x) <$> rows a) b).

Fixpoint qsumsq (l : list Qc) : Qc :=
  match l with
  | [] => 0%Qc
  | e :: l' => (e * e + qsumsq l')%Qc
  end.

(** An optimizer with the contract of C3: on the two free weights of the
    three-day example it returns the smoothest solution, elsewhere the zero
    weights. *)
Definition minimize_shape : minimize_fn := fun _ x0 _ =>
  if decide (length x0 = 2) then
    Ok (mk_OptimizeResult true "Optimization terminated successfully."
          [Fin (qc 4 3); Fin (qc 4 3)])
  else
    Ok (mk_OptimizeResult true "Optimization terminated successfully."
          (np_zeros (length x0))).

Definition deposition3 : Series :=
  [(day 0, Fin (qc 4 1)); (day 1, Fin (qc 4 1)); (day 2, Fin (qc 4 1))].

(* ================================================================== *)
(** * Further statements about the four functions *)
(* ================================================================== *)

(** A flow series on which the last day would have a negative residence
    time: its infiltration timestamp lies after the whole index. *)
Definition rt_ahead (_ : Series) (_ _ : float) : list (option Qc) :=
  [None; None; Some (qc (-1) 1)].

(** A residence time of a thousand million days on the last day: more than
    a 64-bit count of nanoseconds holds. *)
Definition rt_huge (_ : Series) (_ _ : float) : list (option Qc) :=
  [None; None; Some (qc 1000000000 1)].

(** A negative residence time of less than one nanosecond on the last
    day. *)
Definition rt_neg_sub_tick (_ : Series) (_ _ : float) : list (option Qc) :=
  [None; None; Some (qc (-1) 1000000000000000)].

(** The three days with a NaN flow on the last one. *)
Definition flow3_nan : Series :=
  [(day 0, Fin (qc 1 1)); (day 1, Fin (qc 1 1)); (day 2, NaN)].

(** A daily index: consecutive timestamps are one day apart. *)
Definition daily (idx : list Timestamp) : Prop :=
  ∀ j t t', idx !! j = Some t → idx !! S j = Some t' → t' = (t + 1)%Qc.

(** A number of days as a rational. *)
Fixpoint qnat (n : nat) : Qc :=
  match n with
  | O => 0%Qc
  | S n' => (qnat n' + 1)%Qc
  end.

(** The exact counterpart of [F.sum]. *)
Fixpoint qsum (l : list Qc) : Qc :=
  match l with
  | [] => 0%Qc
  | a :: l' => (a + qsum l')%Qc
  end.

(** A second deposition series on the three days, and the sum of the two. *)
Definition deposition3b : Series :=
  [(day 0, Fin (qc 2 1)); (day 1, Fin (qc 0 1)); (day 2, Fin (qc (-1) 1))].
Definition deposition3_sum : Series :=
  [(day 0, Fin (qc 6 1)); (day 1, Fin (qc 4 1)); (day 2, Fin (qc 3 1))].

(** An optimizer that gives up at its start. *)
Definition minimize_gives_up : minimize_fn := fun _ x0 _ =>
  Ok (mk_OptimizeResult false "Maximum number of iterations has been exceeded." x0).

(* ================================================================== *)
(** * Properties of the primitives *)
(* ================================================================== *)

(** Closed goals are settled by evaluation. *)
Ltac by_compute := apply (bool_decide_unpack _); vm_compute; reflexivity.

Example ex_coeff4 :
  snd <$> deposition_coefficients time_ns rt4 flow4 (Fin (qc 150 1)) (Fin (qc 1 2)) (Fin (qc 2 1)) (Fin (qc 1 1))
  = Ok (mk_ndarray 3 4
          [[Fin (qc 1 2); f1; f0; f0];
           [f0; Fin (qc 1 2); f1; f0];
           [f0; f0; Fin (qc 1 2); f1]]).
Proof. by_compute. Qed.

Lemma Qc_ltb_lt (a b : Qc) : Qc_ltb a b = true ↔ (a < b)%Qc.
Proof.
  unfold Qc_ltb, Qclt, Qccompare. rewrite Qlt_alt.
  destruct (this a ?= this b)%Q; split; congruence.
Qed.

Lemma Qc_ltb_ge (a b : Qc) : Qc_ltb a b = false ↔ (b <= a)%Qc.
Proof.
  split.
  - intros H. apply Qcnot_lt_le. intros Hlt. apply Qc_ltb_lt in Hlt. congruence.
  - intros H. destruct (Qc_ltb a b) eqn:E; [|done].
    apply Qc_ltb_lt in E. by apply Qcle_not_lt in H.
Qed.

Lemma increasingb_increasing (l : list Timestamp) :
  increasingb l = true → increasing l.
Proof.
  induction l as [|a l IH]; intros Hb i j x y Hij Hi Hj; [done|].
  assert (Htail : increasingb l = true).
  { destruct l; [done|]. simpl in Hb. by apply andb_prop in Hb as [_ ?]. }
  assert (Hhead : ∀ k z, l !! k = Some z → (a < z)%Qc).
  { intros k. induction k as [|k IHk]; intros z Hz.
    - destruct l as [|b l]; [done|]. simpl in Hz. injection Hz as <-.
      simpl in Hb. apply andb_prop in Hb as [Hab _]. by apply Qc_ltb_lt.
    - destruct (l !! k) as [w|] eqn:Hw.
      + apply Qclt_trans with w; [by apply IHk|].
        apply (IH Htail k (S k)); [lia|done|done].
      + apply lookup_ge_None in Hw. apply lookup_lt_Some in Hz. lia. }
  destruct j as [|j]; [lia|]. destruct i as [|i].
  - simpl in Hi. injection Hi as <-. by apply (Hhead j).
  - apply (IH Htail i j); [lia|done|done].
Qed.

(** The binary search returns the leftmost insertion point: everything
    before it is below the key, everything from it on is at or above. *)
Lemma binsearch_left_spec (arr : list Timestamp) (key : Timestamp) :
  increasing arr →
  ∀ fuel lo hi,
    lo ≤ hi → hi ≤ length arr → hi - lo ≤ fuel →
    (∀ i a, i < lo → arr !! i = Some a → (a < key)%Qc) →
    (∀ i a, hi ≤ i → arr !! i = Some a → (key <= a)%Qc) →
    let r := binsearch_left fuel arr key lo hi in
    lo ≤ r ≤ hi ∧
    (∀ i a, i < r → arr !! i = Some a → (a < key)%Qc) ∧
    (∀ i a, r ≤ i → arr !! i = Some a → (key <= a)%Qc).
Proof.
  intros Hinc fuel. induction fuel as [|fuel IH]; intros lo hi Hle Hhi Hfuel Hlo Hup.
  - simpl. assert (lo = hi) as -> by lia. eauto with lia.
  - cbn [binsearch_left]. destruct (lo <? hi) eqn:Hlt.
    + apply Nat.ltb_lt in Hlt.
      remember (lo + (hi - lo) / 2) as mid eqn:Emid.
      assert (Hmid : lo ≤ mid < hi).
      { subst mid. split; [lia|].
        pose proof (Nat.Div0.div_lt_upper_bound (hi - lo) 2 (hi - lo)). lia. }
      destruct (arr !! mid) as [a|] eqn:Ha.
      * destruct (Qc_ltb a key) eqn:Hcmp.
        -- apply Qc_ltb_lt in Hcmp.
           destruct (IH (mid + 1) hi) as (Hr & Hb & Ha'); try lia; try done.
           { intros i b Hi Hb. destruct (decide (i = mid)) as [->|Hne].
             - rewrite Ha in Hb. by injection Hb as <-.
             - apply Qclt_trans with a; [|done].
               apply (Hinc i mid); [lia|done|done]. }
           split; [lia|done].
        -- apply Qc_ltb_ge in Hcmp.
           destruct (IH lo mid) as (Hr & Hb & Ha'); try lia; try done.
           { intros i b Hi Hb. destruct (decide (i = mid)) as [->|Hne].
             - rewrite Ha in Hb. by injection Hb as <-.
             - apply Qcle_trans with a; [done|]. apply Qclt_le_weak.
               apply (Hinc mid i); [lia|done|done]. }
           split; [lia|done].
      * apply lookup_ge_None in Ha. lia.
    + apply Nat.ltb_ge in Hlt. assert (lo = hi) as -> by lia. eauto with lia.
Qed.

Lemma searchsorted_spec (arr : list Timestamp) (key : Timestamp) :
  increasing arr →
  searchsorted arr key ≤ length arr ∧
  (∀ i a, i < searchsorted arr key → arr !! i = Some a → (a < key)%Qc) ∧
  (∀ i a, searchsorted arr key ≤ i → arr !! i = Some a → (key <= a)%Qc).
Proof.
  intros Hinc. unfold searchsorted.
  destruct (binsearch_left_spec arr key Hinc (length arr) 0 (length arr))
    as (Hr & Hb & Ha); try lia; try done.
  - intros i a Hi Hlk. apply lookup_lt_Some in Hlk. lia.
  - split; [lia|done].
Qed.

(** An element of a strictly increasing index is found at its position. *)
Lemma searchsorted_member (arr : list Timestamp) (j : nat) (t : Timestamp) :
  increasing arr → arr !! j = Some t → searchsorted arr t = j.
Proof.
  intros Hinc Hj. destruct (searchsorted_spec arr t Hinc) as (Hlen & Hb & Ha).
  destruct (Nat.lt_trichotomy (searchsorted arr t) j) as [Hlt|[Heq|Hgt]]; [|done|].
  - destruct (arr !! searchsorted arr t) as [a|] eqn:Hs.
    + pose proof (Ha _ _ (Nat.le_refl _) Hs) as H1.
      pose proof (Hinc _ _ _ _ Hlt Hs Hj) as H2.
      by apply Qcle_not_lt in H1.
    + apply lookup_ge_None in Hs. apply lookup_lt_Some in Hj. lia.
  - pose proof (Hb _ _ Hgt Hj) as H. by apply Qclt_not_eq in H.
Qed.

(* ================================================================== *)
(** * The loop that fills [dt] *)
(* ================================================================== *)

Lemma fill_dt_spec (flow_index : list Timestamp) (df_out : list df_row) :
  ∀ iout dt dt',
    fill_dt flow_index df_out iout dt = Ok dt' →
    nrows dt' = nrows dt ∧ ncols dt' = ncols dt ∧
    length (rows dt') = length (rows dt) ∧
    (∀ i, i < iout → rows dt' !! i = rows dt !! i) ∧
    (∀ k row, df_out !! k = Some row →
       ∃ t, flow_index !! searchsorted flow_index (row_dates_infiltration_retarded row) = Some t ∧
            rows dt' !! (iout + k) = row_update flow_index row t <$> rows dt !! (iout + k)).
Proof.
  induction df_out as [|row rest IH]; intros iout dt dt' Hfill.
  - simpl in Hfill. injection Hfill as <-. repeat split; done.
  - cbn [fill_dt] in Hfill.
    destruct (flow_index !! searchsorted flow_index (row_dates_infiltration_retarded row))
      as [t|] eqn:Ht; [|done].
    apply IH in Hfill as (Hn & Hc & Hlen & Hbefore & Hrows).
    cbn [nrows ncols rows] in *.
    rewrite !length_alter in Hlen.
    repeat split; try done.
    + intros i Hi. rewrite Hbefore by lia.
      rewrite !list_lookup_alter_ne by lia. done.
    + intros [|k] row' Hk.
      * simpl in Hk. injection Hk as <-. exists t. split; [done|].
        rewrite Nat.add_0_r, Hbefore by lia.
        rewrite !list_lookup_alter_eq, <- option_fmap_compose. done.
      * simpl in Hk. destruct (Hrows k row' Hk) as (t' & Ht' & Hrow).
        exists t'. split; [done|].
        replace (iout + S k) with (S iout + k) by lia. rewrite Hrow.
        rewrite !list_lookup_alter_ne by lia. done.
Qed.

Lemma lookup_slice_assign (lo hi : nat) (v : float) (r : list float) (j : nat) :
  slice_assign lo hi v r !! j
  = (fun x => if (lo <=? j) && (j <? hi) then v else x) <$> r !! j.
Proof. unfold slice_assign. by rewrite list_lookup_imap. Qed.

Lemma length_slice_assign (lo hi : nat) (v : float) (r : list float) :
  length (slice_assign lo hi v r) = length r.
Proof. unfold slice_assign. by rewrite length_imap. Qed.

(** Entries of the flow series with a residence time keep their date, and
    the date is a timestamp of the flow index. *)
Lemma valid_entries_sublist (flow : Series) (rt : list (option Qc)) :
  sublist ((valid_entries flow rt).*1.*1) (index flow).
Proof.
  unfold valid_entries, index. revert rt.
  induction flow as [|[t q] flow IH]; intros [|r rt]; simpl;
    try apply sublist_nil_l.
  destruct r as [r|]; simpl.
  - apply sublist_skip, IH.
  - apply sublist_cons, IH.
Qed.

(** A list built entry by entry, each of which may raise. *)
Lemma mapM_Ok {A B} (f : A → result B) (l : list A) (k : list B) :
  mapM f l = Ok k ↔ Forall2 (fun a b => f a = Ok b) l k.
Proof.
  revert k. induction l as [|a l IH]; intros k; simpl.
  - split; [intros [= <-]; constructor|by inversion 1].
  - destruct (f a) as [b|e] eqn:Hb; simpl.
    + destruct (mapM f l) as [k'|e] eqn:Hk; simpl.
      * split.
        -- intros [= <-]. constructor; [done|]. by apply IH.
        -- inversion 1 as [|? b' ? k'' Hb' Hk'']; subst.
           apply IH in Hk''. injection Hk'' as <-.
           rewrite Hb in Hb'. injection Hb' as <-. reflexivity.
      * split; [done|]. inversion 1 as [|? b' ? k'' Hb' Hk'']; subst.
        apply IH in Hk''. done.
    + split; [done|]. inversion 1; congruence.
Qed.

(** The first entry that raises decides the error. *)
Lemma mapM_Raise {A B} (f : A → result B) (l : list A) (e : exn) :
  mapM f l = Raise e → ∃ a, a ∈ l ∧ f a = Raise e.
Proof.
  induction l as [|a l IH]; simpl; [done|].
  destruct (f a) as [b|e'] eqn:Hb; simpl.
  - destruct (mapM f l) as [k'|e'] eqn:Hk; simpl; [done|].
    intros [= ->]. destruct IH as (a' & Ha' & He); [done|].
    exists a'. split; [by right|done].
  - intros [= ->]. exists a. split; [by left|done].
Qed.

(** What a row of the table holds: the date, residence time and flow of its
    entry, the area, and the infiltration timestamp obtained by converting
    the residence time and subtracting it from the date. *)
Lemma make_row_inv (tm : pandas_time) (p th R : float)
    (e : Timestamp * float * Qc) (row : df_row) :
  make_row tm p th R e = Ok row →
  row_date row = e.1.1 ∧ row_rt row = e.2 ∧ row_flow row = e.1.2 ∧
  row_darea row = e.1.2 ⊘ (R ⊗ p ⊗ th) ∧
  ∃ td, to_timedelta_D tm e.2 = Ok td ∧
        sub_timedelta tm e.1.1 td = Ok (row_dates_infiltration_retarded row).
Proof.
  unfold make_row.
  destruct (to_timedelta_D tm e.2) as [td|?] eqn:Htd; [|done]. simpl.
  destruct (sub_timedelta tm e.1.1 td) as [t_inf|?] eqn:Hsub; [|done]. simpl.
  intros [= <-]. simpl. repeat split; try done. by exists td.
Qed.

Lemma make_df_out_lookup (tm : pandas_time) (flow : Series) (rt : list (option Qc))
    (p th R : float) (df0 : list df_row) (k : nat) (row : df_row) :
  make_df_out tm flow rt p th R = Ok df0 →
  df0 !! k = Some row →
  ∃ e, valid_entries flow rt !! k = Some e ∧ make_row tm p th R e = Ok row.
Proof.
  intros H Hk. apply mapM_Ok in H.
  destruct (Forall2_lookup_r _ _ _ _ _ H Hk) as (e & He & Hrow). by exists e.
Qed.

Lemma make_df_out_length (tm : pandas_time) (flow : Series) (rt : list (option Qc))
    (p th R : float) (df0 : list df_row) :
  make_df_out tm flow rt p th R = Ok df0 →
  length df0 = length (valid_entries flow rt).
Proof. intros H. apply mapM_Ok in H. symmetry. by eapply Forall2_length. Qed.

Lemma make_df_out_dates (tm : pandas_time) (flow : Series) (rt : list (option Qc))
    (p th R : float) (df0 : list df_row) :
  make_df_out tm flow rt p th R = Ok df0 →
  row_date <$> df0 = (valid_entries flow rt).*1.*1.
Proof.
  intros H. apply list_eq. intros k. rewrite !list_lookup_fmap.
  destruct (df0 !! k) as [row|] eqn:Hk.
  - destruct (make_df_out_lookup _ _ _ _ _ _ _ _ _ H Hk) as (e & He & Hrow).
    rewrite He. simpl. f_equal. by apply make_row_inv in Hrow as (? & _).
  - apply lookup_ge_None in Hk. rewrite (make_df_out_length _ _ _ _ _ _ _ H) in Hk.
    apply lookup_ge_None in Hk. by rewrite Hk.
Qed.

Lemma make_df_out_date_in_index (tm : pandas_time) (flow : Series)
    (rt : list (option Qc)) (p th R : float) (df0 : list df_row)
    (k : nat) (row : df_row) :
  make_df_out tm flow rt p th R = Ok df0 →
  df0 !! k = Some row →
  ∃ j, index flow !! j = Some (row_date row).
Proof.
  intros H Hk.
  assert (Hin : row_date row ∈ row_date <$> df0).
  { apply list_elem_of_fmap. exists row. split; [done|].
    by apply list_elem_of_lookup_2 in Hk. }
  rewrite (make_df_out_dates _ _ _ _ _ _ _ H) in Hin.
  apply (sublist_subseteq _ _ (valid_entries_sublist flow rt)) in Hin.
  by apply list_elem_of_lookup_1 in Hin.
Qed.

(* ================================================================== *)
(** * C1: the weights of one row of [dt] *)
(* ================================================================== *)

Lemma first_day_weight (t_inf t : Qc) :
  ((- (t_inf - t)) / one_day)%Qc = (t - t_inf)%Qc.
Proof.
  unfold one_day. change (qc 1 1) with 1%Qc.
  rewrite (right_id 1%Qc Qcdiv). ring.
Qed.

Lemma length_index (flow : Series) : length (index flow) = length flow.
Proof. unfold index. by rewrite length_fmap. Qed.

(** The loop invariant, read off at the end of the loop. *)
Lemma fill_dt_row_weights (tm : pandas_time) (flow : Series) (rt : list (option Qc))
    (porosity thickness retardation_factor : float) (df_out : list df_row)
    (dt : ndarray) (iout : nat) (row : df_row) :
  increasingb (index flow) = true →
  make_df_out tm flow rt porosity thickness retardation_factor = Ok df_out →
  fill_dt (index flow) df_out 0 (np_zeros2 (length df_out) (length flow)) = Ok dt →
  df_out !! iout = Some row →
  ∃ r, rows dt !! iout = Some r ∧ row_weights (index flow) row r.
Proof.
  intros Hinc Hdf Hfill Hrow. apply increasingb_increasing in Hinc.
  apply fill_dt_spec in Hfill as (_ & _ & _ & _ & Hrows).
  destruct (Hrows iout row Hrow) as (t & Ht & Hr). simpl in Hr.
  rewrite lookup_replicate_2 in Hr by (by apply lookup_lt_Some in Hrow).
  eexists. split; [exact Hr|].
  destruct (make_df_out_date_in_index _ _ _ _ _ _ _ _ _ Hdf Hrow) as (je & Hje).
  pose proof (searchsorted_member _ _ _ Hinc Hje) as Hextr.
  destruct (searchsorted_spec (index flow) (row_dates_infiltration_retarded row) Hinc)
    as (_ & Hbelow & Habove).
  pose proof (lookup_lt_Some _ _ _ Ht) as Hlt. rewrite length_index in Hlt.
  unfold row_weights, row_update. rewrite Hextr.
  set (i_inf := searchsorted (index flow) (row_dates_infiltration_retarded row)) in *.
  repeat split.
  - by rewrite length_insert, length_slice_assign, length_replicate, length_index.
  - done.
  - done.
  - exists t. repeat split; [done|by apply (Habove i_inf)|].
    rewrite list_lookup_insert_eq
      by (by rewrite length_slice_assign, length_replicate).
    by rewrite first_day_weight.
  - intros j Hj. apply lookup_lt_Some in Hje. rewrite length_index in Hje.
    rewrite list_lookup_insert_ne, lookup_slice_assign by lia.
    rewrite lookup_replicate_2 by lia. simpl.
    destruct (i_inf <=? j) eqn:E1; [|apply Nat.leb_gt in E1; lia].
    destruct (j <? je + 1) eqn:E2; [done|apply Nat.ltb_ge in E2; lia].
  - intros j Hj Hne Hout. rewrite length_index in Hj.
    rewrite list_lookup_insert_ne, lookup_slice_assign by lia.
    rewrite lookup_replicate_2 by lia. simpl.
    destruct (i_inf <=? j) eqn:E1; [apply Nat.leb_le in E1|done].
    destruct (j <? je + 1) eqn:E2; [apply Nat.ltb_lt in E2; lia|done].
Qed.

(** C1 (as amended).  For a strictly increasing flow index and every row of
    the table [df_out] built at lines 149-153, the loop leaves in the row's
    line of [dt]: at the leftmost insertion point [i_inf] of the row's
    infiltration timestamp (the first grid point at or after it) the weight
    [grid_timestamp[i_inf] - infiltration_timestamp] in days, weight 1.0 on
    the columns after [i_inf] through [i_extr], and 0 elsewhere. *)
Theorem C1_row_weights (tm : pandas_time) (flow : Series) (rt : list (option Qc))
    (porosity thickness retardation_factor : float) (df_out : list df_row)
    (dt : ndarray) (iout : nat) (row : df_row) :
  increasingb (index flow) = true →
  make_df_out tm flow rt porosity thickness retardation_factor = Ok df_out →
  fill_dt (index flow) df_out 0 (np_zeros2 (length df_out) (length flow)) = Ok dt →
  df_out !! iout = Some row →
  ∃ r, rows dt !! iout = Some r ∧ row_weights (index flow) row r.
Proof. apply fill_dt_row_weights. Qed.

Example make_df_out4 :
  make_df_out time_ns flow4 (rt4 flow4 f0 f0) (Fin (qc 1 2)) (Fin (qc 2 1)) (Fin (qc 1 1))
  = Ok df4.
Proof. by_compute. Qed.

Lemma fill_dt4 :
  fill_dt (index flow4) df4 0 (np_zeros2 (length df4) (length flow4)) = Ok dt4.
Proof. by_compute. Qed.

Lemma C1_row_weights_witness :
  ∃ r, rows dt4 !! 1 = Some r ∧ row_weights (index flow4) row4_1 r.
Proof.
  apply (C1_row_weights time_ns flow4 (rt4 flow4 f0 f0)
           (Fin (qc 1 2)) (Fin (qc 2 1)) (Fin (qc 1 1)) df4).
  - vm_compute. reflexivity.
  - by_compute.
  - by_compute.
  - by_compute.
Defined.

(** C1 as stated fails: extraction on day 2 with a residence time of 1.5
    days infiltrates at day 0.5; the binary search returns grid index 1,
    whose timestamp (day 1) is after the infiltration timestamp, and the
    weight there is 0.5, not 1 - (0.5 - 1) = 1.5. *)
Lemma C1_counterexample :
  ∃ dt row r,
    fill_dt (index flow4) df4 0 (np_zeros2 (length df4) (length flow4)) = Ok dt ∧
    df4 !! 1 = Some row ∧ rows dt !! 1 = Some r ∧
    searchsorted (index flow4) (row_dates_infiltration_retarded row) = 1 ∧
    r !! 1 = Some (Fin (qc 1 2)) ∧
    ¬ row_weights_as_specified (index flow4) row r.
Proof.
  exists dt4, row4_1, [f0; Fin (qc 1 2); f1; f0].
  split; [apply fill_dt4|].
  split; [by_compute|]. split; [done|]. split; [by vm_compute|]. split; [done|].
  intros (t & Ht & Hle & _).
  assert (t = day 1) as ->.
  { assert (E : index flow4 !! searchsorted (index flow4)
                  (row_dates_infiltration_retarded row4_1) = Some (day 1)) by by_compute.
    rewrite E in Ht. by injection Ht. }
  apply Qcle_not_lt in Hle. apply Hle. apply Qc_ltb_lt. by vm_compute.
Qed.

(* ================================================================== *)
(** * The coefficient matrix *)
(* ================================================================== *)

Lemma valid_entries_dates (flow : Series) (rt : list (option Qc)) :
  (valid_entries flow rt).*1.*1 = retained_timestamps flow rt.
Proof.
  unfold valid_entries, retained_timestamps, index. revert rt.
  induction flow as [|[t q] flow IH]; intros [|r rt]; try done.
  simpl. destruct r as [r|]; simpl.
  - f_equal. apply IH.
  - apply IH.
Qed.

Lemma scaled_coefficients_inv tm rtp (flow : Series) (apv p th R : float)
    (df : list df_row) (coeff : ndarray) :
  scaled_coefficients tm rtp flow apv p th R = Ok (df, coeff) →
  let flow_floor := median (values flow) ⊘ Fin (qc 100 1) in
  ∃ df0 dt,
    length (rtp flow apv R) = length flow ∧
    make_df_out tm flow (rtp flow apv R) p th R = Ok df0 ∧
    fill_dt (index flow) df0 0 (np_zeros2 (length df0) (length flow)) = Ok dt ∧
    df = (fun r => set_row_flow (clip_lower flow_floor (row_flow r)) r) <$> df0 ∧
    coeff = scale_rows ((fun r => row_darea r ⊘ row_flow r) <$> df) dt.
Proof.
  unfold scaled_coefficients. case_decide; [|done].
  destruct (make_df_out _ _ _ _ _ _) as [df0|e] eqn:Hdf0; [|done]. simpl.
  destruct (fill_dt _ _ _ _) as [dt|e] eqn:Hfill; [|done].
  simpl. intros [= <- <-]. by exists df0, dt.
Qed.

(** The steps of [scaled_coefficients], in the order in which they can
    fail. *)
Lemma scaled_coefficients_eval tm rtp (flow : Series) (apv p th R : float)
    (df0 : list df_row) :
  length (rtp flow apv R) = length flow →
  make_df_out tm flow (rtp flow apv R) p th R = Ok df0 →
  scaled_coefficients tm rtp flow apv p th R
  = (dt ← fill_dt (index flow) df0 0 (np_zeros2 (length df0) (length flow));
     let flow_floor := median (values flow) ⊘ Fin (qc 100 1) in
     let df := (fun r => set_row_flow (clip_lower flow_floor (row_flow r)) r) <$> df0 in
     Ok (df, scale_rows ((fun r => row_darea r ⊘ row_flow r) <$> df) dt)).
Proof.
  intros Hlen Hdf0. unfold scaled_coefficients.
  case_decide; [|done]. by rewrite Hdf0.
Qed.

Lemma deposition_coefficients_inv tm rtp (flow : Series) (apv p th R : float)
    (df : list df_row) (coeff : ndarray) :
  deposition_coefficients tm rtp flow apv p th R = Ok (df, coeff) →
  scaled_coefficients tm rtp flow apv p th R = Ok (df, coeff) ∧ any_isnan coeff = false.
Proof.
  unfold deposition_coefficients.
  destruct (scaled_coefficients _ _ _ _ _ _) as [[df' coeff']|e]; [|done].
  simpl. destruct (any_isnan coeff') eqn:E; [done|]. by intros [= <- <-].
Qed.

(** The shape of the matrix and the dates of the table. *)
Lemma scaled_coefficients_shape tm rtp (flow : Series) (apv p th R : float)
    (df : list df_row) (coeff : ndarray) :
  scaled_coefficients tm rtp flow apv p th R = Ok (df, coeff) →
  row_date <$> df = retained_timestamps flow (rtp flow apv R) ∧
  nrows coeff = length df ∧ length (rows coeff) = length df ∧
  ncols coeff = length flow.
Proof.
  intros H. apply scaled_coefficients_inv in H as (df0 & dt & _ & Hdf0 & Hfill & -> & ->).
  apply fill_dt_spec in Hfill as (Hn & Hc & Hlen & _). simpl in *.
  rewrite length_replicate in Hlen.
  repeat split.
  - rewrite <- list_fmap_compose, <- valid_entries_dates,
      <- (make_df_out_dates tm flow _ p th R df0 Hdf0).
    by apply list_fmap_ext.
  - by rewrite length_fmap.
  - rewrite length_zip_with, !length_fmap. lia.
  - done.
Qed.

Lemma Fin_inj (a b : Qc) : Fin a = Fin b → a = b.
Proof.
  intros E.
  exact (f_equal (fun x => match x with Fin q => q | _ => a end) E).
Qed.

Lemma mul_pos_nonzero (s : float) (c : Qc) :
  (0 < c)%Qc → s ≠ f0 → s ⊗ Fin c ≠ f0.
Proof.
  intros Hc Hs.
  assert (Hsgn : F.sgn c = Gt).
  { unfold F.sgn. change (qc 0 1) with 0%Qc. by apply Qcgt_alt. }
  destruct s as [a| | |]; simpl; rewrite ?Hsgn; try done.
  intros E. apply Fin_inj in E. apply Hs. f_equal.
  change (qc 0 1) with 0%Qc in *.
  apply Qcmult_integral in E as [E|E]; [done|].
  subst c. by apply Qclt_not_eq in Hc.
Qed.

(* ================================================================== *)
(** * C9: the rows of the coefficient matrix *)
(* ================================================================== *)

Lemma any_isnan_false (a : ndarray) :
  any_isnan a = false ↔ ∀ r x, r ∈ rows a → x ∈ r → x ≠ NaN.
Proof.
  unfold any_isnan. split.
  - intros H r x Hr Hx ->.
    assert (E : existsb (existsb F.isnan) (rows a) = true); [|congruence].
    apply existsb_exists. exists r. split; [by apply list_elem_of_In|].
    apply existsb_exists. exists NaN. split; [by apply list_elem_of_In|done].
  - intros H. destruct (existsb _ _) eqn:E; [|done].
    apply existsb_exists in E as (r & Hr & E).
    apply existsb_exists in E as (x & Hx & E).
    destruct x; try done.
    exfalso. by apply (H r NaN); [apply list_elem_of_In..|].
Qed.

Lemma mul_zero_not_nan (s : float) : s ⊗ f0 ≠ NaN → s ⊗ f0 = f0.
Proof.
  destruct s as [a| | |]; simpl; try done.
  intros _. unfold f0. f_equal. change (qc 0 1) with 0%Qc. ring.
Qed.

(** The scale factor of a timestamp whose flow is zero is zero or NaN,
    whatever the divisors: an entry it scales is zero unless it is NaN. *)
Lemma zero_flow_entry (d y : float) (c : Qc) :
  f0 ⊘ d ⊘ y ⊗ Fin c ≠ NaN → f0 ⊘ d ⊘ y ⊗ Fin c = f0.
Proof.
  assert (Hz : ∀ y' : float, f0 ⊘ y' = f0 ∨ f0 ⊘ y' = NaN).
  { intros [b| | |]; simpl; auto.
    destruct (F.sgn b); auto; left; unfold f0; f_equal;
      change (qc 0 1) with 0%Qc; unfold Qcdiv; ring. }
  destruct (Hz d) as [-> | ->]; [|done].
  destruct (Hz y) as [-> | ->]; [|done].
  intros _. simpl. unfold f0. f_equal. change (qc 0 1) with 0%Qc. ring.
Qed.

(** Every weight of a row of [dt] is a finite number. *)
Lemma row_weights_finite (flow_index : list Timestamp) (row : df_row)
    (dtr : list float) (j : nat) (w : float) :
  row_weights flow_index row dtr → dtr !! j = Some w → ∃ c, w = Fin c.
Proof.
  intros (Hlen & _ & _ & (t & _ & _ & Hw) & Hones & Hzero) Hj.
  set (i_inf := searchsorted flow_index (row_dates_infiltration_retarded row)) in *.
  set (i_extr := searchsorted flow_index (row_date row)) in *.
  pose proof (lookup_lt_Some _ _ _ Hj) as Hlt. rewrite Hlen in Hlt.
  destruct (decide (j = i_inf)) as [->|Hne].
  - rewrite Hw in Hj. injection Hj as <-. eauto.
  - destruct (decide (i_inf < j ≤ i_extr)) as [Hin|Hout].
    + rewrite (Hones j Hin) in Hj. injection Hj as <-. by eexists.
    + rewrite (Hzero j Hlt Hne Hout) in Hj. injection Hj as <-. by eexists.
Qed.

(** In a row whose infiltration timestamp is strictly before its date, the
    column of the extraction date holds a positive weight. *)
Lemma row_weights_extraction_column (flow_index : list Timestamp) (row : df_row)
    (dtr : list float) :
  row_weights flow_index row dtr →
  (row_dates_infiltration_retarded row < row_date row)%Qc →
  ∃ c, (0 < c)%Qc ∧
       dtr !! searchsorted flow_index (row_date row) = Some (Fin c).
Proof.
  intros (Hlen & Hextr & Hbelow & (t & Ht & Hle & Hw) & Hones & _) Hlt.
  set (i_inf := searchsorted flow_index (row_dates_infiltration_retarded row)) in *.
  set (i_extr := searchsorted flow_index (row_date row)) in *.
  destruct (Nat.lt_trichotomy i_inf i_extr) as [H|[H|H]].
  - exists 1%Qc. split; [done|]. apply Hones. lia.
  - exists (row_date row - row_dates_infiltration_retarded row)%Qc. split.
    + by apply (proj1 (Qclt_minus_iff _ _)).
    + rewrite <- H, Hw. do 2 f_equal.
      rewrite H, Hextr in Ht. by injection Ht as <-.
  - pose proof (Hbelow _ _ H Hextr) as Hcontra.
    exfalso. apply (Qclt_not_le _ _ Hlt). by apply Qclt_le_weak.
Qed.

(** In a row whose infiltration timestamp is its date, every weight is
    zero. *)
Lemma row_weights_no_residence (flow_index : list Timestamp) (row : df_row)
    (dtr : list float) (j : nat) (w : float) :
  row_weights flow_index row dtr →
  row_dates_infiltration_retarded row = row_date row →
  dtr !! j = Some w → w = f0.
Proof.
  intros (Hlen & Hextr & _ & (t & Ht & _ & Hw) & _ & Hzero) Heq Hj.
  rewrite Heq in *.
  set (i_extr := searchsorted flow_index (row_date row)) in *.
  pose proof (lookup_lt_Some _ _ _ Hj) as Hlt. rewrite Hlen in Hlt.
  destruct (decide (j = i_extr)) as [->|Hne].
  - rewrite Hw in Hj. injection Hj as <-.
    rewrite Hextr in Ht. injection Ht as <-.
    unfold f0. f_equal. change (qc 0 1) with 0%Qc. ring.
  - rewrite (Hzero j Hlt Hne) in Hj by lia. by injection Hj as <-.
Qed.

(** C9 (as amended).  The matrix returned by [deposition_coefficients] has
    exactly one row per timestamp of the flow index with a non-missing
    residence time, in the order of the flow index, and row [k] holds the
    weights of the [k]-th such timestamp scaled by its area / flow.  A row
    is not entirely zero when its infiltration timestamp (the date minus
    the converted residence time) is strictly before its date and its scale
    factor is not zero.  It is entirely zero when the infiltration
    timestamp is the date itself (a residence time that converts to a zero
    Timedelta) and when the flow of its timestamp is zero. *)
Theorem C9_coefficient_rows
    (tm : pandas_time) (rtp : Series → float → float → list (option Qc)) (flow : Series)
    (apv p th R : float) (df : list df_row) (coeff : ndarray) :
  increasingb (index flow) = true →
  deposition_coefficients tm rtp flow apv p th R = Ok (df, coeff) →
  coefficient_rows flow (rtp flow apv R) p th R df coeff.
Proof.
  intros Hinc Hdc. apply deposition_coefficients_inv in Hdc as [Hsc Hnan].
  destruct (scaled_coefficients_shape _ _ _ _ _ _ _ _ _ Hsc) as (Hdates & Hn & Hlen & Hc).
  assert (Hcount : length df = length (retained_timestamps flow (rtp flow apv R))).
  { by rewrite <- Hdates, length_fmap. }
  repeat split; try congruence.
  intros k row Hk. pose proof Hk as Hk'.
  apply scaled_coefficients_inv in Hsc as (df0 & dt & _ & Hdf0 & Hfill & Hdf & Hcoeff).
  rewrite Hdf, list_lookup_fmap in Hk.
  destruct (df0 !! k) as [row0|] eqn:Hk0; [|done].
  simpl in Hk. injection Hk as Hrow.
  destruct (fill_dt_row_weights _ _ _ _ _ _ _ _ _ _ Hinc Hdf0 Hfill Hk0) as (dtr & Hdtr & Hw).
  assert (Hw' : row_weights (index flow) row dtr) by (by subst row).
  destruct (make_df_out_lookup _ _ _ _ _ _ _ _ _ Hdf0 Hk0) as ([[t q] r] & He & Hmk).
  apply make_row_inv in Hmk as (Hdate & Hrt & Hflow & Harea & _). simpl in *.
  assert (Hrd : row_date row = t) by (by rewrite <- Hrow).
  assert (Hrr : row_rt row = r) by (by rewrite <- Hrow).
  assert (Hra : row_darea row = q ⊘ (R ⊗ p ⊗ th)) by (by rewrite <- Hrow).
  assert (Hrf : row_flow row = clip_lower (median (values flow) ⊘ Fin (qc 100 1)) q).
  { rewrite <- Hrow. simpl. by rewrite Hflow. }
  set (scale := row_darea row ⊘ row_flow row).
  assert (Hrowk : rows coeff !! k = Some (F.mul scale <$> dtr)).
  { rewrite Hcoeff. simpl.
    rewrite lookup_zip_with, list_lookup_fmap, Hk', Hdtr. done. }
  assert (Hnn : ∀ x, x ∈ F.mul scale <$> dtr → x ≠ NaN).
  { intros x Hx. apply (proj1 (any_isnan_false coeff) Hnan (F.mul scale <$> dtr)); [|done].
    by eapply list_elem_of_lookup_2. }
  exists dtr, (F.mul scale <$> dtr), q.
  split; [by rewrite He, Hrd, Hrr|].
  split; [done|]. split; [done|].
  split; [done|]. split; [done|]. split; [done|]. split; [|split].
  - intros Hlt Hscale.
    destruct (row_weights_extraction_column _ _ _ Hw' Hlt) as (c & Hc0 & Hcol).
    exists (scale ⊗ Fin c). split.
    + apply list_elem_of_fmap. exists (Fin c). split; [done|].
      by eapply list_elem_of_lookup_2.
    + by apply mul_pos_nonzero.
  - intros Heq x Hx. pose proof (Hnn x Hx) as Hx'.
    apply list_elem_of_fmap in Hx as (w & -> & Hw0).
    apply list_elem_of_lookup_1 in Hw0 as (j & Hj).
    rewrite (row_weights_no_residence _ _ _ _ _ Hw' Heq Hj) in Hx' |- *.
    by apply mul_zero_not_nan.
  - intros Hq x Hx. pose proof (Hnn x Hx) as Hx'.
    apply list_elem_of_fmap in Hx as (w & -> & Hw0).
    apply list_elem_of_lookup_1 in Hw0 as (j & Hj).
    destruct (row_weights_finite _ _ _ _ _ Hw' Hj) as (c & ->).
    unfold scale in *. rewrite Hra, Hq in Hx' |- *.
    by apply zero_flow_entry.
Qed.

Example coeff4 :
  deposition_coefficients time_ns rt4 flow4
    (Fin (qc 150 1)) (Fin (qc 1 2)) (Fin (qc 2 1)) (Fin (qc 1 1)) = Ok (df4, dt4).
Proof. by_compute. Qed.

Lemma C9_coefficient_rows_witness :
  coefficient_rows flow4 (rt4 flow4 (Fin (qc 150 1)) (Fin (qc 1 1)))
    (Fin (qc 1 2)) (Fin (qc 2 1)) (Fin (qc 1 1)) df4 dt4.
Proof.
  apply (C9_coefficient_rows time_ns rt4 flow4 (Fin (qc 150 1)) (Fin (qc 1 2)) (Fin (qc 2 1))
           (Fin (qc 1 1)) df4 dt4).
  - vm_compute. reflexivity.
  - by_compute.
Defined.

(** C9 as stated fails: the row of a retained timestamp whose flow is zero
    has area 0, hence scale factor 0, and is entirely zero. *)
Lemma C9_counterexample :
  ¬ coefficient_rows_as_specified time_ns rt_stop flow_stop
      (Fin (qc 150 1)) (Fin (qc 1 2)) (Fin (qc 2 1)) (Fin (qc 1 1)).
Proof.
  intros H.
  assert (Hrun : ∃ df coeff,
             deposition_coefficients time_ns rt_stop flow_stop
               (Fin (qc 150 1)) (Fin (qc 1 2)) (Fin (qc 2 1)) (Fin (qc 1 1)) = Ok (df, coeff) ∧
             rows coeff !! 2 = Some [f0; f0; f0; f0]).
  { eexists _, _. split; [vm_compute; reflexivity|by_compute]. }
  destruct Hrun as (df & coeff & Hrun & Hrow).
  destruct (H df coeff Hrun) as (_ & _ & Hnz). clear H Hrun.
  destruct (Hnz [f0; f0; f0; f0]) as (x & Hx & Hx0).
  { by eapply list_elem_of_lookup_2. }
  rewrite !elem_of_cons, elem_of_nil in Hx.
  destruct Hx as [->|[->|[->|[->|[]]]]]; done.
Qed.

(** A residence time below one tick converts to a zero Timedelta: the
    infiltration timestamp is the date and the row is entirely zero,
    although the residence time is positive and the scale factor is 1. *)
Example sub_tick_row_is_zero :
  deposition_coefficients time_ns rt_sub_tick flow3
    (Fin (qc 5 2)) (Fin (qc 1 2)) (Fin (qc 2 1)) (Fin (qc 1 1))
  = Ok ([mk_df_row (day 2) (qc 1 1000000000000000) (Fin (qc 1 1)) (day 2) (Fin (qc 1 1))],
        mk_ndarray 1 3 [[f0; f0; f0]]).
Proof. by_compute. Qed.

(* ================================================================== *)
(** * C6: the check on the scaled coefficients *)
(* ================================================================== *)

(** C6 (as amended).  [deposition_coefficients] raises
    [ValueError("Coefficients contain nan values.")] exactly when an entry of
    the scaled matrix is NaN, and a matrix it returns has no NaN entry;
    infinite entries are not checked. *)
Theorem C6_nan_rejected
    (tm : pandas_time) (rtp : Series → float → float → list (option Qc)) (flow : Series)
    (apv p th R : float) :
  (∀ df coeff,
     scaled_coefficients tm rtp flow apv p th R = Ok (df, coeff) →
     deposition_coefficients tm rtp flow apv p th R
     = if any_isnan coeff then Raise (ValueError "Coefficients contain nan values.")
       else Ok (df, coeff)) ∧
  (∀ df coeff,
     deposition_coefficients tm rtp flow apv p th R = Ok (df, coeff) →
     ∀ r x, r ∈ rows coeff → x ∈ r → x ≠ NaN).
Proof.
  split.
  - intros df coeff H. unfold deposition_coefficients. by rewrite H.
  - intros df coeff H. apply deposition_coefficients_inv in H as [_ H].
    by apply any_isnan_false.
Qed.

(** With thickness 0 on the four-day series the area is infinite and the
    zero weights of [dt] turn into NaN: the error is raised. *)
Example nan_coefficient_rejected :
  deposition_coefficients time_ns rt4 flow4 (Fin (qc 150 1)) (Fin (qc 1 2)) f0 (Fin (qc 1 1))
  = Raise (ValueError "Coefficients contain nan values.").
Proof. by_compute. Qed.

(** C6 as stated fails: with thickness 0 the area is infinite, every entry
    of the only row is [+inf], none is NaN, and the matrix is returned. *)
Lemma C6_counterexample :
  deposition_coefficients time_ns rt3 flow3 (Fin (qc 5 2)) (Fin (qc 1 2)) f0 (Fin (qc 1 1))
  = Ok ([mk_df_row (day 2) (qc 5 2) (Fin (qc 1 1)) (qc (-1) 2) PInf],
        mk_ndarray 1 3 [[PInf; PInf; PInf]]) ∧
  ¬ nonfinite_rejected_as_specified time_ns rt3 flow3
      (Fin (qc 5 2)) (Fin (qc 1 2)) f0 (Fin (qc 1 1)).
Proof.
  assert (Hrun : deposition_coefficients time_ns rt3 flow3 (Fin (qc 5 2)) (Fin (qc 1 2)) f0 (Fin (qc 1 1))
                 = Ok ([mk_df_row (day 2) (qc 5 2) (Fin (qc 1 1)) (qc (-1) 2) PInf],
                       mk_ndarray 1 3 [[PInf; PInf; PInf]])) by by_compute.
  split; [done|]. intros H.
  destruct (H _ _ (proj1 (deposition_coefficients_inv _ _ _ _ _ _ _ _ _ Hrun))) as (e & He).
  - exists [PInf; PInf; PInf], PInf. simpl. rewrite !elem_of_cons. auto.
  - rewrite Hrun in He. clear H Hrun. done.
Qed.

(* ================================================================== *)
(** * C2: nullspace *)
(* ================================================================== *)

Lemma Qc_eqb_eq (a b : Qc) : Qc_eqb a b = true ↔ a = b.
Proof.
  unfold Qc_eqb. split.
  - destruct (a ?= b)%Qc eqn:E; try done. intros _. by apply Qceq_alt.
  - intros ->. assert (E : (b ?= b)%Qc = Eq) by by apply Qceq_alt. by rewrite E.
Qed.

Lemma geb_trans (a b c : float) :
  F.geb a b = true → F.geb b c = true → F.geb a c = true.
Proof.
  unfold F.geb, F.leb.
  destruct a as [a| | |], b as [b| | |], c as [c| | |]; simpl; try done.
  rewrite !orb_true_iff, !Qc_ltb_lt, !Qc_eqb_eq.
  intros [H1| ->] [H2| ->]; eauto using Qclt_trans.
Qed.

(** In a descending list the entries at or above a threshold are a prefix,
    so counting them gives the position of the first entry below it. *)
Lemma descending_count (s : list float) (tol : float) :
  descending s →
  ∀ i sv, s !! i = Some sv →
    (i < length (filter (fun x => F.geb x tol = true) s) ↔ F.geb sv tol = true).
Proof.
  induction s as [|a s IH]; intros Hd i sv Hi; [done|].
  assert (Hd' : descending s).
  { intros i' j' x y Hij Hx Hy. apply (Hd (S i') (S j')); [lia|done|done]. }
  destruct (F.geb a tol) eqn:Ea.
  - rewrite filter_cons_True by done. destruct i as [|i]; simpl in *.
    + injection Hi as <-. split; [done|lia].
    + rewrite <- (IH Hd' i sv Hi). lia.
  - rewrite filter_cons_False by congruence.
    assert (Hnone : ∀ k x, s !! k = Some x → F.geb x tol = false).
    { intros k x Hk. destruct (F.geb x tol) eqn:Ex; [|done].
      assert (F.geb a tol = true); [|congruence].
      apply geb_trans with x; [|done].
      apply (Hd 0 (S k)); [lia|done|done]. }
    assert (Hnil : filter (fun x => F.geb x tol = true) s = []).
    { destruct (filter _ s) as [|y l] eqn:El; [done|]. exfalso.
      assert (Hy : y ∈ filter (fun x => F.geb x tol = true) s) by (rewrite El; left).
      apply list_elem_of_filter in Hy as [Hy1 Hy2].
      apply list_elem_of_lookup_1 in Hy2 as [k Hk].
      rewrite (Hnone _ _ Hk) in Hy1. done. }
    rewrite Hnil. simpl. destruct i as [|i]; simpl in Hi.
    + injection Hi as <-. rewrite Ea. split; [lia|done].
    + rewrite (Hnone _ _ Hi). split; [lia|done].
Qed.

Lemma column_lookup (j k : nat) (rs : list (list float)) (v : list float) :
  rs !! k = Some v → column j rs !! k = Some (default f0 (v !! j)).
Proof. intros H. unfold column. by rewrite list_lookup_fmap, H. Qed.

Lemma tabulate_lookup (v : list float) (n : nat) :
  length v = n → (fun j => default f0 (v !! j)) <$> seq 0 n = v.
Proof.
  intros <-. apply list_eq. intros j. rewrite list_lookup_fmap.
  destruct (decide (j < length v)) as [Hj|Hj].
  - rewrite lookup_seq_lt by done. simpl.
    destruct (lookup_lt_is_Some_2 v j Hj) as [x Hx]. by rewrite Hx.
  - rewrite lookup_seq_ge by lia. simpl. symmetry. apply lookup_ge_None. lia.
Qed.

(** The columns of the transpose are the rows. *)
Lemma columns_transpose (a : ndarray) :
  well_formed a → columns (transpose a) = rows a.
Proof.
  intros [Hlen Hrows]. unfold columns, transpose. simpl. rewrite <- Hlen.
  apply list_eq. intros k. rewrite list_lookup_fmap.
  destruct (decide (k < length (rows a))) as [Hk|Hk].
  - rewrite lookup_seq_lt by done. simpl.
    destruct (lookup_lt_is_Some_2 _ _ Hk) as [v Hv]. rewrite Hv. f_equal.
    unfold column at 1. rewrite <- list_fmap_compose.
    transitivity ((fun j => default f0 (v !! j)) <$> seq 0 (ncols a)).
    + apply list_fmap_ext. intros _ j _. simpl.
      by rewrite (column_lookup j k _ v Hv).
    + apply tabulate_lookup, Hrows. by eapply list_elem_of_lookup_2.
  - rewrite lookup_seq_ge by lia. simpl. symmetry. apply lookup_ge_None. lia.
Qed.

Lemma well_formed_drop_rows (k : nat) (a : ndarray) :
  well_formed a → well_formed (drop_rows k a).
Proof.
  intros [Hlen Hrows]. split; simpl.
  - rewrite length_drop. lia.
  - intros r Hr. apply Hrows.
    by apply (sublist_subseteq _ _ (sublist_drop (rows a) k)).
Qed.

Lemma orthonormal_drop (k : nat) (vs : list (list float)) :
  orthonormal vs → orthonormal (drop k vs).
Proof.
  intros H i j u v Hi Hj. rewrite lookup_drop in Hi, Hj.
  rewrite (H _ _ _ _ Hi Hj). repeat case_decide; done || lia.
Qed.

(** Among numbers, failing [a >= b] is being strictly below. *)
Lemma geb_false_ltb (a b : float) :
  F.isnan a = false → F.isnan b = false →
  (F.geb a b = false ↔ F.ltb a b = true).
Proof.
  unfold F.geb, F.leb.
  destruct a as [a| | |], b as [b| | |]; simpl; try done.
  intros _ _. rewrite orb_false_iff, Qc_ltb_ge, Qc_ltb_lt. split.
  - intros [Hle Hne]. apply Qcle_lt_or_eq in Hle as [Hlt| ->]; [done|].
    assert (E : Qc_eqb b b = true) by by apply Qc_eqb_eq. congruence.
  - intros Hlt. split; [by apply Qclt_le_weak|].
    destruct (Qc_eqb b a) eqn:E; [|done].
    apply Qc_eqb_eq in E as ->. by apply Qclt_not_eq in Hlt.
Qed.

Lemma geb_nan_r (a : float) : F.geb a NaN = false.
Proof. by destruct a. Qed.

Lemma descending_not_nan (s : list float) (i : nat) (sv : float) :
  descending s → s !! i = Some sv → F.isnan sv = false.
Proof.
  intros Hd Hi. pose proof (Hd i i sv sv (Nat.le_refl _) Hi Hi) as H.
  by destruct sv.
Qed.

(** C2 (as amended).  [nullspace] calls [svd] once.  If [svd] raises,
    [nullspace] raises that error; if it returns no singular value (a
    matrix without rows or without columns), [nullspace] raises IndexError
    at [s[0]].  Otherwise, with [tol = max(atol, rtol * s[0])] (Python's
    [max]: [atol] unless the product is strictly greater), it returns the
    matrix of shape (n_columns x (rows(vh) - nnz)) whose columns are the
    rows [vh[nnz:]], [nnz] being the number of singular values for which
    [s >= tol] holds.  For singular values in descending order the vectors
    kept are those whose singular value fails [s >= tol], and the rows of
    [vh] without a singular value: when [tol] is a number these are the
    singular values strictly below [tol] (one equal to [tol] counts as
    non-zero), when [tol] is NaN they are all of them.  The columns are
    orthonormal when the rows of [vh] are. *)
Theorem C2_nullspace (svd : svd_fn) (coefficients : ndarray) (atol rtol : float) :
  (∀ e, svd coefficients = Raise e →
        nullspace svd coefficients atol rtol = mk_traced [CallSvd] (Raise e)) ∧
  (∀ u vh, svd coefficients = Ok (u, [], vh) →
           nullspace svd coefficients atol rtol = mk_traced [CallSvd] (Raise IndexError)) ∧
  (∀ u s0 s vh,
     svd coefficients = Ok (u, s0 :: s, vh) →
     well_formed vh →
     ∃ N, nullspace svd coefficients atol rtol = mk_traced [CallSvd] (Ok N) ∧
          nullspace_basis (s0 :: s) vh (F.py_max atol (rtol ⊗ s0)) N).
Proof.
  split; [|split].
  - intros e Hsvd. unfold nullspace. by rewrite Hsvd.
  - intros u vh Hsvd. unfold nullspace. by rewrite Hsvd.
  - intros u s0 s vh Hsvd Hwf. unfold nullspace. rewrite Hsvd.
    eexists. split; [reflexivity|].
    set (tol := F.py_max atol (rtol ⊗ s0)).
    set (nnz := length (filter (fun sv => F.geb sv tol = true) (s0 :: s))).
    assert (Hcols : columns (transpose (drop_rows nnz vh)) = drop nnz (rows vh)).
    { by rewrite columns_transpose by by apply well_formed_drop_rows. }
    assert (Hkept : descending (s0 :: s) →
              ∀ i sv, (s0 :: s) !! i = Some sv → (nnz ≤ i ↔ F.geb sv tol = false)).
    { intros Hd i sv Hi. split.
      - intros Hle. destruct (F.geb sv tol) eqn:E; [|done].
        apply (descending_count _ tol Hd i sv Hi) in E. fold nnz in E. lia.
      - intros E. destruct (decide (nnz ≤ i)) as [|Hlt]; [done|].
        assert (Hlt' : i < nnz) by lia.
        apply (descending_count _ tol Hd i sv Hi) in Hlt'. congruence. }
    unfold nullspace_basis. fold nnz.
    split; [done|]. split; [done|]. split; [done|]. split; [done|].
    split; [|split].
    + intros Hd Htol i sv Hi. rewrite (Hkept Hd i sv Hi).
      apply geb_false_ltb; [|done]. by eapply descending_not_nan.
    + intros Htol. unfold nnz. destruct tol; try done.
      assert (H : ∀ l : list float, filter (fun sv => F.geb sv NaN = true) l = []).
      { induction l as [|x l IH]; [done|].
        rewrite filter_cons_False; [done|]. by rewrite geb_nan_r. }
      by rewrite H.
    + intros Ho. rewrite Hcols. by apply orthonormal_drop.
Qed.

Example svd13_decomposes : usvh (mk_ndarray 1 1 [[f1]]) [Fin (qc 3 2)] vh13 = a13.
Proof. by_compute. Qed.

Lemma C2_nullspace_witness :
  ∃ N, nullspace svd13 a13 atol_default rtol_default = mk_traced [CallSvd] (Ok N) ∧
       nullspace_basis [Fin (qc 3 2)] vh13
         (F.py_max atol_default (rtol_default ⊗ Fin (qc 3 2))) N.
Proof.
  apply (proj2 (proj2 (C2_nullspace svd13 a13 atol_default rtol_default))
           (mk_ndarray 1 1 [[f1]])).
  - reflexivity.
  - split; [reflexivity|]. intros r Hr. simpl in Hr.
    rewrite !elem_of_cons, elem_of_nil in Hr.
    destruct Hr as [->|[->|[->|[]]]]; reflexivity.
Defined.

Example svd_tol_decomposes : usvh eye2 [f1; atol_default] eye2 = a_tol.
Proof. by_compute. Qed.

(** C2 as stated fails: the singular value 1e-13 is equal to the tolerance,
    is counted as non-zero, and the basis returned has no column. *)
Lemma C2_counterexample :
  nullspace svd_tol a_tol atol_default rtol_default
  = mk_traced [CallSvd] (Ok (mk_ndarray 2 0 [[]; []])) ∧
  F.py_max atol_default (rtol_default ⊗ f1) = atol_default ∧
  ¬ nullspace_as_specified [f1; atol_default] eye2 atol_default (mk_ndarray 2 0 [[]; []]).
Proof.
  split; [by_compute|]. split; [by_compute|].
  intros H.
  specialize (H 1 atol_default [f0; f1] eq_refl eq_refl).
  assert (Hle : F.leb atol_default atol_default = true) by by vm_compute.
  apply H in Hle. unfold columns in Hle. simpl in Hle. by apply elem_of_nil in Hle.
Qed.

Example vh13_orthonormal : orthonormal (rows vh13).
Proof.
  intros i j u v Hi Hj.
  destruct i as [|[|[|i]]]; simpl in Hi; try done; injection Hi as <-;
    destruct j as [|[|[|j]]]; simpl in Hj; try done; injection Hj as <-;
    by_compute.
Qed.

(* ================================================================== *)
(** * C7: a concentration series of the wrong length *)
(* ================================================================== *)

(** C7.  When the coefficient matrix is built and the length of [cout]
    differs from its number of rows, [compute_deposition] raises the
    ValueError about the length of [cout] having called neither the
    least-squares solver nor anything after it, and returns no series. *)
Theorem C7_length_mismatch
    (tm : pandas_time) (rtp : Series → float → float → list (option Qc))
    (lstsq : lstsq_fn)
    (svd : svd_fn)
    (minimize : minimize_fn)
    (cout flow : Series) (apv p th R : float) (obj : py_objective)
    (df : list df_row) (coeff : ndarray) :
  deposition_coefficients tm rtp flow apv p th R = Ok (df, coeff) →
  length cout ≠ nrows coeff →
  compute_deposition tm rtp lstsq svd minimize cout flow apv p th R obj
  = mk_traced [] (Raise (ValueError (length_mismatch_message (length cout) (nrows coeff)))).
Proof.
  intros Hdc Hlen. unfold compute_deposition. rewrite Hdc.
  cbn [lift mbind traced_bind outcome trace].
  destruct (decide (length cout ≠ nrows coeff)); [|done]. reflexivity.
Qed.

Lemma C7_length_mismatch_witness :
  compute_deposition time_ns rt4 lstsq_zero svd_shapes minimize_at_start
    [(day 0, f1); (day 1, f1); (day 2, f1); (day 3, f1)] flow4
    (Fin (qc 150 1)) (Fin (qc 1 2)) (Fin (qc 2 1)) (Fin (qc 1 1)) (ObjStr "squared_lengths")
  = mk_traced [] (Raise (ValueError (length_mismatch_message 4 3))).
Proof.
  apply (C7_length_mismatch time_ns rt4 lstsq_zero svd_shapes minimize_at_start
           [(day 0, f1); (day 1, f1); (day 2, f1); (day 3, f1)] flow4
           (Fin (qc 150 1)) (Fin (qc 1 2)) (Fin (qc 2 1)) (Fin (qc 1 1))
           (ObjStr "squared_lengths") df4 dt4).
  - by_compute.
  - simpl. lia.
Defined.

Example length_mismatch_message_4_3 :
  length_mismatch_message 4 3
  = "Length of cout (4) should be equal to the number of rows in coeff (3)Either ".
Proof. reflexivity. Qed.

(* ================================================================== *)
(** * C10: a matrix without rows *)
(* ================================================================== *)

Lemma valid_entries_all_missing (flow : Series) :
  valid_entries flow (replicate (length flow) None) = [].
Proof.
  unfold valid_entries. induction flow as [|e flow IH]; [done|]. simpl. apply IH.
Qed.

Lemma deposition_coefficients_all_missing
    (tm : pandas_time) (rtp : Series → float → float → list (option Qc)) (flow : Series)
    (apv p th R : float) :
  rtp flow apv R = replicate (length flow) None →
  deposition_coefficients tm rtp flow apv p th R = Ok ([], mk_ndarray 0 (length flow) []).
Proof.
  intros Hrt. unfold deposition_coefficients, scaled_coefficients. rewrite Hrt.
  rewrite length_replicate. case_decide; [|done].
  unfold make_df_out. rewrite valid_entries_all_missing. reflexivity.
Qed.

Lemma nullspace_no_singular_values
    (svd : svd_fn) (a : ndarray) (atol rtol : float) (u vh : ndarray) :
  svd a = Ok (u, [], vh) →
  nullspace svd a atol rtol = mk_traced [CallSvd] (Raise IndexError).
Proof. intros Hs. unfold nullspace. by rewrite Hs. Qed.

(** With every residence time missing and an empty [cout], the run ends in
    or before [nullspace]. *)
Lemma compute_deposition_all_missing
    (tm : pandas_time) (rtp : Series → float → float → list (option Qc))
    (lstsq : lstsq_fn) (svd : svd_fn) (minimize : minimize_fn)
    (flow : Series) (apv p th R : float) (obj : py_objective) :
  (∀ a u s vh, svd a = Ok (u, s, vh) → length s = nrows a `min` ncols a) →
  rtp flow apv R = replicate (length flow) None →
  compute_deposition tm rtp lstsq svd minimize [] flow apv p th R obj
  = match lstsq (mk_ndarray 0 (length flow) []) [] with
    | Raise e => mk_traced [CallLstsq] (Raise e)
    | Ok _ =>
        match svd (mk_ndarray 0 (length flow) []) with
        | Raise e => mk_traced [CallLstsq; CallSvd] (Raise e)
        | Ok _ => mk_traced [CallLstsq; CallSvd] (Raise IndexError)
        end
    end.
Proof.
  intros Hsvd Hrt.
  unfold compute_deposition.
  rewrite (deposition_coefficients_all_missing _ _ _ _ _ _ _ Hrt).
  cbn [lift mbind traced_bind outcome trace nrows].
  destruct (decide (length [] ≠ 0)) as [Hne|_]; [done|].
  change (values []) with (@nil float).
  destruct (lstsq _ _) as [ls|e]; [|reflexivity].
  cbn [external mbind traced_bind outcome trace app].
  destruct (svd _) as [[[u s] vh]|e] eqn:Hs.
  - rewrite (nullspace_no_singular_values _ _ _ _ u vh); [reflexivity|].
    rewrite Hs. do 3 f_equal. apply length_zero_iff_nil.
    by rewrite (Hsvd _ _ _ _ Hs).
  - unfold nullspace. rewrite Hs. reflexivity.
Qed.

(** C10.  numpy's [svd] returns [min(m, n)] singular values.  For a matrix
    with no rows [nullspace] therefore reads [s[0]] of an empty array and
    raises IndexError; and [compute_deposition], called with a flow series on
    which every residence time is missing and an empty [cout], builds the
    matrix with no rows, passes the length check, calls [lstsq] and then
    fails in [nullspace] with that IndexError.  (Should [lstsq] or [svd]
    itself raise on the empty matrix, that error is what comes out: in no
    case a result or a designed error.) *)
Theorem C10_zero_rows
    (tm : pandas_time) (rtp : Series → float → float → list (option Qc))
    (lstsq : lstsq_fn) (svd : svd_fn) (minimize : minimize_fn)
    (flow : Series) (apv p th R : float) (obj : py_objective) :
  (∀ a u s vh, svd a = Ok (u, s, vh) → length s = nrows a `min` ncols a) →
  rtp flow apv R = replicate (length flow) None →
  (∀ a atol rtol u s vh, nrows a = 0 → svd a = Ok (u, s, vh) →
     nullspace svd a atol rtol = mk_traced [CallSvd] (Raise IndexError)) ∧
  compute_deposition tm rtp lstsq svd minimize [] flow apv p th R obj
  = match lstsq (mk_ndarray 0 (length flow) []) [] with
    | Raise e => mk_traced [CallLstsq] (Raise e)
    | Ok _ =>
        match svd (mk_ndarray 0 (length flow) []) with
        | Raise e => mk_traced [CallLstsq; CallSvd] (Raise e)
        | Ok _ => mk_traced [CallLstsq; CallSvd] (Raise IndexError)
        end
    end.
Proof.
  intros Hsvd Hrt.
  assert (Hns : ∀ a atol rtol u s vh, nrows a = 0 → svd a = Ok (u, s, vh) →
            nullspace svd a atol rtol = mk_traced [CallSvd] (Raise IndexError)).
  { intros a atol rtol u s vh Ha Hs. apply nullspace_no_singular_values with u vh.
    rewrite Hs. do 3 f_equal. apply length_zero_iff_nil.
    rewrite (Hsvd _ _ _ _ Hs), Ha. done. }
  split; [done|]. by apply compute_deposition_all_missing.
Qed.

Lemma C10_zero_rows_witness :
  (∀ a atol rtol u s vh, nrows a = 0 → svd_shapes a = Ok (u, s, vh) →
     nullspace svd_shapes a atol rtol = mk_traced [CallSvd] (Raise IndexError)) ∧
  compute_deposition time_ns rt_missing lstsq_zero svd_shapes minimize_at_start [] flow4
    (Fin (qc 150 1)) (Fin (qc 1 2)) (Fin (qc 2 1)) (Fin (qc 1 1)) (ObjStr "squared_lengths")
  = mk_traced [CallLstsq; CallSvd] (Raise IndexError).
Proof.
  apply (C10_zero_rows time_ns rt_missing lstsq_zero svd_shapes minimize_at_start flow4).
  - intros a u s vh [= _ <- _]. by rewrite length_replicate.
  - reflexivity.
Defined.


(* ================================================================== *)
(** * compute_deposition, stage by stage *)
(* ================================================================== *)

Section Stages.

Variable tm : pandas_time.
Variable rtp : Series → float → float → list (option Qc).
Variable lstsq : lstsq_fn.
Variable svd : svd_fn.
Variable minimize : minimize_fn.

Lemma nullspace_run (a : ndarray) (atol rtol : float)
    (u : ndarray) (s0 : float) (s : list float) (vh : ndarray) :
  svd a = Ok (u, s0 :: s, vh) →
  nullspace svd a atol rtol = mk_traced [CallSvd] (Ok (kept_vectors s0 s vh atol rtol)).
Proof. intros H. unfold nullspace. by rewrite H. Qed.

(** What [compute_deposition] does once the matrix is built, the length
    check has passed, [lstsq] has returned and the decomposition has a
    singular value. *)
Lemma compute_deposition_run (cout flow : Series) (apv p th R : float)
    (obj : py_objective) (df : list df_row) (coeff : ndarray) (ls : list float)
    (u : ndarray) (s0 : float) (s : list float) (vh : ndarray) :
  deposition_coefficients tm rtp flow apv p th R = Ok (df, coeff) →
  length cout = nrows coeff →
  lstsq coeff (values cout) = Ok ls →
  svd coeff = Ok (u, s0 :: s, vh) →
  let N := kept_vectors s0 s vh atol_default rtol_default in
  compute_deposition tm rtp lstsq svd minimize cout flow apv p th R obj
  = match minimize objective_squared_lengths (np_zeros (ncols N)) (ls, N) with
    | Raise e => mk_traced [CallLstsq; CallSvd; CallMinimize] (Raise e)
    | Ok res =>
        if success res then
          if objective_is obj "squared_lengths" then
            mk_traced [CallLstsq; CallSvd; CallMinimize]
              (assemble ls N (x res) (index flow))
          else if objective_is obj "summed_lengths" then
            after_second_minimize ls N (index flow)
              (minimize objective_summed_lengths (x res) (ls, N))
          else match obj with
               | ObjCallable f =>
                   after_second_minimize ls N (index flow) (minimize f (x res) (ls, N))
               | _ =>
                   mk_traced [CallLstsq; CallSvd; CallMinimize]
                     (Raise (ValueError ("Unknown nullspace objective: " +:+ py_str obj)))
               end
        else
          mk_traced [CallLstsq; CallSvd; CallMinimize]
            (Raise (ValueError ("Optimization failed: " +:+ message res)))
    end.
Proof.
  intros Hdc Hlen Hls Hsvd N. unfold compute_deposition. rewrite Hdc.
  cbn [lift mbind traced_bind outcome trace].
  destruct (decide (length cout ≠ nrows coeff)) as [|_]; [done|].
  rewrite Hls. cbn [external mbind traced_bind outcome trace app].
  rewrite (nullspace_run _ _ _ _ _ _ _ Hsvd).
  cbn [external mbind traced_bind outcome trace app].
  fold N.
  destruct (minimize objective_squared_lengths _ _) as [res|e]; [|reflexivity].
  cbn [external mbind traced_bind outcome trace app].
  destruct (success res); cbn [negb]; [|reflexivity].
  destruct (objective_is obj "squared_lengths"); cbn [negb].
  { unfold assemble. cbn [mret traced_ret mbind traced_bind outcome trace app lift].
    destruct (matvec N (x res)) as [nx|e]; cbn; [|reflexivity].
    destruct (vadd ls nx) as [d|e]; cbn; reflexivity. }
  assert (Hsecond : ∀ r : result OptimizeResult,
    (let m := external CallMinimize r in
     match outcome m with
     | Ok a =>
         let r0 := (nx ← lift (matvec N (x a));
                    deposition_data ← lift (vadd ls nx);
                    lift (pd_Series deposition_data (index flow))) in
         mk_traced ([CallLstsq; CallSvd; CallMinimize] ++ trace m ++ trace r0) (outcome r0)
     | Raise e => mk_traced ([CallLstsq; CallSvd; CallMinimize] ++ trace m) (Raise e)
     end) = after_second_minimize ls N (index flow) r).
  { intros [res2|e]; [|reflexivity].
    unfold after_second_minimize, assemble.
    cbn [external mbind traced_bind result_bind outcome trace app lift].
    destruct (matvec N _) as [nx|e]; cbn; [|reflexivity].
    destruct (vadd ls nx) as [d|e]; cbn; reflexivity. }
  destruct (objective_is obj "summed_lengths").
  { rewrite <- Hsecond. cbn [external mbind traced_bind outcome trace app lift].
    destruct (minimize objective_summed_lengths _ _); reflexivity. }
  destruct obj as [name|f|other]; try reflexivity.
  rewrite <- Hsecond. cbn [external mbind traced_bind outcome trace app lift].
  destruct (minimize f _ _); reflexivity.
Qed.

End Stages.

(* ================================================================== *)
(** * A worked inversion: three days, one retained row *)
(* ================================================================== *)

(** With porosity 1/2, thickness 2 and retardation 1 the flow series
    [flow3] under [rt3] gives the one-row matrix [a13]. *)
Example coeff3 :
  deposition_coefficients time_ns rt3 flow3 (Fin (qc 5 2)) (Fin (qc 1 2)) (Fin (qc 2 1)) (Fin (qc 1 1))
  = Ok ([mk_df_row (day 2) (qc 5 2) (Fin (qc 1 1)) (qc (-1) 2) (Fin (qc 1 1))], a13).
Proof. by_compute. Qed.

Example inversion3 :
  compute_deposition time_ns rt3 lstsq_row svd13 minimize_smooth cout3 flow3
    (Fin (qc 5 2)) (Fin (qc 1 2)) (Fin (qc 2 1)) (Fin (qc 1 1)) (ObjStr "squared_lengths")
  = mk_traced [CallLstsq; CallSvd; CallMinimize]
      (Ok [(day 0, Fin (qc 4 1)); (day 1, Fin (qc 4 1)); (day 2, Fin (qc 4 1))]).
Proof. by_compute. Qed.

(* ================================================================== *)
(** * C4: an unknown objective *)
(* ================================================================== *)

(** C4 as stated fails: the unknown name is only looked at after the
    squared-lengths minimization has run. *)
Lemma C4_counterexample :
  compute_deposition time_ns rt3 lstsq_row svd13 minimize_smooth cout3 flow3
    (Fin (qc 5 2)) (Fin (qc 1 2)) (Fin (qc 2 1)) (Fin (qc 1 1))
    (ObjStr "not_a_real_objective")
  = mk_traced [CallLstsq; CallSvd; CallMinimize]
      (Raise (ValueError "Unknown nullspace objective: not_a_real_objective")) ∧
  ¬ unknown_objective_as_specified (ObjStr "not_a_real_objective")
      (compute_deposition time_ns rt3 lstsq_row svd13 minimize_smooth cout3 flow3
         (Fin (qc 5 2)) (Fin (qc 1 2)) (Fin (qc 2 1)) (Fin (qc 1 1))
         (ObjStr "not_a_real_objective")).
Proof.
  assert (Hrun : compute_deposition time_ns rt3 lstsq_row svd13 minimize_smooth cout3 flow3
                   (Fin (qc 5 2)) (Fin (qc 1 2)) (Fin (qc 2 1)) (Fin (qc 1 1))
                   (ObjStr "not_a_real_objective")
                 = mk_traced [CallLstsq; CallSvd; CallMinimize]
                     (Raise (ValueError "Unknown nullspace objective: not_a_real_objective")))
    by by_compute.
  split; [exact Hrun|]. rewrite Hrun. clear Hrun. intros [_ Hno]. apply Hno. simpl.
  rewrite !elem_of_cons. auto.
Qed.

(** C4 (as amended).  For an objective that is neither of the two names nor
    a callable, once the matrix is built, the length check has passed,
    [lstsq] has returned and the decomposition is there,
    [compute_deposition] has called [lstsq], [svd] and the squared-lengths
    minimization before it raises: the "Unknown nullspace objective"
    ValueError when that minimization reports success, its "Optimization
    failed" ValueError when it reports failure (and the optimizer's own
    error, should the optimizer raise).  No series is returned. *)
Theorem C4_unknown_objective
    (tm : pandas_time) (rtp : Series → float → float → list (option Qc))
    (lstsq : lstsq_fn) (svd : svd_fn) (minimize : minimize_fn)
    (cout flow : Series) (apv p th R : float) (obj : py_objective)
    (df : list df_row) (coeff : ndarray) (ls : list float)
    (u : ndarray) (s0 : float) (s : list float) (vh : ndarray) :
  deposition_coefficients tm rtp flow apv p th R = Ok (df, coeff) →
  length cout = nrows coeff →
  lstsq coeff (values cout) = Ok ls →
  svd coeff = Ok (u, s0 :: s, vh) →
  objective_is obj "squared_lengths" = false →
  objective_is obj "summed_lengths" = false →
  (∀ f, obj ≠ ObjCallable f) →
  compute_deposition tm rtp lstsq svd minimize cout flow apv p th R obj
  = let N := kept_vectors s0 s vh atol_default rtol_default in
    mk_traced [CallLstsq; CallSvd; CallMinimize]
      (match minimize objective_squared_lengths (np_zeros (ncols N)) (ls, N) with
       | Ok res =>
           Raise (ValueError (if success res
                              then "Unknown nullspace objective: " +:+ py_str obj
                              else "Optimization failed: " +:+ message res))
       | Raise e => Raise e
       end).
Proof.
  intros Hdc Hlen Hls Hsvd Hsq Hsum Hcall.
  rewrite (compute_deposition_run tm rtp lstsq svd minimize cout flow apv p th R obj
             df coeff ls u s0 s vh Hdc Hlen Hls Hsvd).
  cbn zeta. destruct (minimize _ _ _) as [res|e]; [|done].
  rewrite Hsq, Hsum.
  destruct (success _); [|done].
  destruct obj as [name|f|other]; try done. by destruct (Hcall f).
Qed.

Lemma C4_unknown_objective_witness :
  compute_deposition time_ns rt3 lstsq_row svd13 minimize_smooth cout3 flow3
    (Fin (qc 5 2)) (Fin (qc 1 2)) (Fin (qc 2 1)) (Fin (qc 1 1)) (ObjOther "None")
  = mk_traced [CallLstsq; CallSvd; CallMinimize]
      (Raise (ValueError "Unknown nullspace objective: None")).
Proof.
  apply (C4_unknown_objective time_ns rt3 lstsq_row svd13 minimize_smooth cout3 flow3
           (Fin (qc 5 2)) (Fin (qc 1 2)) (Fin (qc 2 1)) (Fin (qc 1 1)) (ObjOther "None")
           [mk_df_row (day 2) (qc 5 2) (Fin (qc 1 1)) (qc (-1) 2) (Fin (qc 1 1))] a13
           (lstsq_row_value a13 (values cout3))
           (mk_ndarray 1 1 [[f1]]) (Fin (qc 3 2)) [] vh13).
  - by_compute.
  - reflexivity.
  - reflexivity.
  - reflexivity.
  - reflexivity.
  - reflexivity.
  - intros f. discriminate.
Defined.

(* ================================================================== *)
(** * C5: an optimizer that does not converge *)
(* ================================================================== *)

(** C5 (where the code departs from it).  The first minimization is checked
    (line 68); the result of the second one is not.  With the objective
    "summed_lengths" and an optimizer whose second run stops unconverged at
    the weights (1, 1), reporting failure, [compute_deposition] raises
    nothing and returns the series built from those weights. *)
Theorem C5_unconverged_second_stage :
  success <$> minimize_stalls objective_summed_lengths [Fin (qc 4 3); Fin (qc 4 3)]
                (lstsq_row_value a13 (values cout3),
                 kept_vectors (Fin (qc 3 2)) [] vh13 atol_default rtol_default)
  = Ok false ∧
  compute_deposition time_ns rt3 lstsq_row svd13 minimize_stalls cout3 flow3
    (Fin (qc 5 2)) (Fin (qc 1 2)) (Fin (qc 2 1)) (Fin (qc 1 1)) (ObjStr "summed_lengths")
  = mk_traced [CallLstsq; CallSvd; CallMinimize; CallMinimize]
      (Ok [(day 0, Fin (qc 32 9)); (day 1, Fin (qc 37 9)); (day 2, Fin (qc 37 9))]).
Proof. split; by_compute. Qed.

(* ================================================================== *)
(** * C8: a matrix of full rank *)
(* ================================================================== *)

Lemma add_f0_r (a : float) : a ⊕ f0 = a.
Proof.
  destruct a as [q| | |]; try done. simpl. f_equal.
  change (qc 0 1) with 0%Qc. ring.
Qed.

Lemma zip_with_add_zeros {A} (ls : list float) (l : list A) :
  length ls = length l → zip_with F.add ls ((fun _ => f0) <$> l) = ls.
Proof.
  revert l. induction ls as [|a ls IH]; intros [|b l] Hlen; try done.
  simpl in *. rewrite add_f0_r, IH by lia. done.
Qed.

Lemma dot_nil_r (r : list float) : dot r [] = f0.
Proof. unfold dot. by destruct r. Qed.

(** With no weight to choose, the assembled series is the least-squares
    solution on the flow index. *)
Lemma assemble_no_weights (ls : list float) (N : ndarray) (flow : Series) :
  ncols N = 0 → length (rows N) = length flow → length ls = length flow →
  assemble ls N [] (index flow) = Ok (zip (index flow) ls).
Proof.
  intros Hc Hr Hls. unfold assemble, matvec. rewrite Hc.
  case_decide; [|done]. cbn [mbind result_bind].
  assert (Hnx : (fun r => dot r []) <$> rows N = (fun _ => f0) <$> rows N).
  { apply list_fmap_ext. intros _ r _. apply dot_nil_r. }
  rewrite Hnx. unfold vadd. rewrite length_fmap.
  case_decide; [|lia]. cbn [mbind result_bind].
  rewrite zip_with_add_zeros by lia.
  unfold pd_Series. rewrite length_index. case_decide; [done|lia].
Qed.

(** When every singular value passes the test [s >= tol] and [vh] has as
    many rows as there are singular values, no vector is kept. *)
Lemma kept_vectors_full_rank (s0 : float) (s : list float) (vh : ndarray)
    (atol rtol : float) :
  Forall (fun sv => F.geb sv (F.py_max atol (rtol ⊗ s0)) = true) (s0 :: s) →
  nrows vh = length (s0 :: s) →
  ncols (kept_vectors s0 s vh atol rtol) = 0.
Proof.
  intros Hall Hn. unfold kept_vectors. cbn [ncols transpose drop_rows nrows].
  set (tol := F.py_max atol (rtol ⊗ s0)) in *.
  assert (Hf : ∀ l : list float,
            Forall (fun sv => F.geb sv tol = true) l →
            length (filter (fun sv => F.geb sv tol = true) l) = length l).
  { induction 1 as [|a l Ha _ IH]; [done|].
    rewrite filter_cons_True by done. simpl. by rewrite IH. }
  rewrite (Hf _ Hall). lia.
Qed.


Example svd22_decomposes : usvh eye2 [Fin (qc 1 2); Fin (qc 1 2)] eye2 = a22.
Proof. by_compute. Qed.

Example coeff2 :
  deposition_coefficients time_ns rt2 flow2
    (Fin (qc 1 2)) (Fin (qc 1 2)) (Fin (qc 2 1)) (Fin (qc 1 1))
  = Ok ([mk_df_row (day 0) (qc 1 2) (Fin (qc 1 1)) (qc (-1) 2) (Fin (qc 1 1));
         mk_df_row (day 1) (qc 1 2) (Fin (qc 1 1)) (qc 1 2) (Fin (qc 1 1))], a22).
Proof. by_compute. Qed.



(** An optimizer that does return on the empty start leaves the
    least-squares solution unchanged. *)
Example inversion2 :
  compute_deposition time_ns rt2 lstsq22 svd22 minimize_at_start cout2 flow2
    (Fin (qc 1 2)) (Fin (qc 1 2)) (Fin (qc 2 1)) (Fin (qc 1 1)) (ObjStr "summed_lengths")
  = mk_traced [CallLstsq; CallSvd; CallMinimize; CallMinimize]
      (Ok [(day 0, Fin (qc 6 1)); (day 1, Fin (qc 10 1))]).
Proof. by_compute. Qed.

(* ================================================================== *)
(** * Exact linear algebra *)
(* ================================================================== *)

Lemma finite_inv (v : list float) : finite v → ∃ q : list Qc, v = Fin <$> q.
Proof.
  induction 1 as [|a v Ha _ [q ->]]; [by exists []|].
  destruct a as [a| | |]; try done. by exists (a :: q).
Qed.

Lemma finite_fin (q : list Qc) : finite (Fin <$> q).
Proof. induction q; constructor; done. Qed.

Lemma finite_matrix_inv (rs : list (list float)) :
  Forall finite rs → ∃ qs : list (list Qc), rs = fin_rows qs.
Proof.
  induction 1 as [|r rs Hr _ [qs ->]]; [by exists []|].
  destruct (finite_inv r Hr) as [q ->]. by exists (q :: qs).
Qed.

Lemma foldl_add_fin (acc : Qc) (u v : list Qc) :
  foldl F.add (Fin acc) (zip_with F.mul (Fin <$> u) (Fin <$> v))
  = Fin (acc + qdot u v)%Qc.
Proof.
  revert acc v. induction u as [|a u IH]; intros acc [|b v]; simpl;
    try (f_equal; ring).
  rewrite IH. f_equal. ring.
Qed.

Lemma dot_fin (u v : list Qc) : dot (Fin <$> u) (Fin <$> v) = Fin (qdot u v).
Proof.
  unfold dot, F.sum, f0. rewrite foldl_add_fin. f_equal.
  change (qc 0 1) with 0%Qc. ring.
Qed.

Lemma column_fin (j : nat) (qs : list (list Qc)) :
  column j (fin_rows qs) = Fin <$> qcolumn j qs.
Proof.
  unfold column, qcolumn, fin_rows. rewrite <- !list_fmap_compose.
  apply list_fmap_ext. intros _ r _. simpl. rewrite list_lookup_fmap.
  by destruct (r !! j).
Qed.

Lemma qdot_nil_r (u : list Qc) : qdot u [] = 0%Qc.
Proof. by destruct u. Qed.

Lemma qdot_fmap_zero {A} (r : list Qc) (l : list A) :
  qdot r ((fun _ => 0%Qc) <$> l) = 0%Qc.
Proof.
  revert l. induction r as [|a r IH]; intros [|x l]; simpl; try done.
  rewrite IH. ring.
Qed.

Lemma qdot_fmap_add {A} (r : list Qc) (f g : A → Qc) (l : list A) :
  qdot r ((fun j => f j + g j)%Qc <$> l)
  = (qdot r (f <$> l) + qdot r (g <$> l))%Qc.
Proof.
  revert l. induction r as [|a r IH]; intros [|x l]; simpl; try ring.
  rewrite IH. unfold fmap. ring.
Qed.

Lemma qdot_fmap_scale {A} (r : list Qc) (f : A → Qc) (c : Qc) (l : list A) :
  qdot r ((fun j => f j * c)%Qc <$> l) = (qdot r (f <$> l) * c)%Qc.
Proof.
  revert l. induction r as [|a r IH]; intros [|x l]; simpl; try ring.
  rewrite IH. unfold fmap. ring.
Qed.

Lemma qdot_add_r (r u v : list Qc) :
  length u = length v →
  qdot r (zip_with Qcplus u v) = (qdot r u + qdot r v)%Qc.
Proof.
  revert u v. induction r as [|a r IH]; intros [|x u] [|y v] Hlen; simpl in *;
    try ring; try lia.
  rewrite IH by lia. ring.
Qed.

Lemma qtabulate_lookup (v : list Qc) (n : nat) :
  length v = n → (fun j => default 0%Qc (v !! j)) <$> seq 0 n = v.
Proof.
  intros <-. apply list_eq. intros j. rewrite list_lookup_fmap.
  destruct (decide (j < length v)) as [Hj|Hj].
  - rewrite lookup_seq_lt by done. simpl.
    destruct (lookup_lt_is_Some_2 v j Hj) as [a Ha]. by rewrite Ha.
  - rewrite lookup_seq_ge by lia. simpl. symmetry. apply lookup_ge_None. lia.
Qed.

(** A row that annihilates every vector of [V] annihilates every
    combination [V^T w] of them. *)
Lemma qdot_combination (r : list Qc) (V : list (list Qc)) (n : nat) :
  (∀ v, v ∈ V → length v = n) →
  (∀ v, v ∈ V → qdot r v = 0%Qc) →
  ∀ w, qdot r ((fun j => qdot (qcolumn j V) w) <$> seq 0 n) = 0%Qc.
Proof.
  induction V as [|v V IH]; intros Hlen Hnull w.
  - apply qdot_fmap_zero.
  - destruct w as [|w0 w].
    + rewrite (list_fmap_ext _ (fun _ => 0%Qc) (seq 0 n));
        [apply qdot_fmap_zero|]. intros _ j _. apply qdot_nil_r.
    + simpl.
      rewrite (qdot_fmap_add r (fun j => default 0 (v !! j) * w0)%Qc
                 (fun j => qdot (qcolumn j V) w)).
      rewrite (qdot_fmap_scale r (fun j => default 0%Qc (v !! j)) w0).
      rewrite qtabulate_lookup by (apply Hlen; left).
      rewrite Hnull by left.
      rewrite IH.
      * ring.
      * intros v' Hv'. apply Hlen. by right.
      * intros v' Hv'. apply Hnull. by right.
Qed.

Lemma Qcsquare_nonneg (e : Qc) : (0 <= e * e)%Qc.
Proof.
  destruct (Qclt_le_dec e 0) as [Hneg|Hpos].
  - replace (e * e)%Qc with ((- e) * (- e))%Qc by ring.
    assert (0 <= - e)%Qc.
    { apply Qclt_le_weak in Hneg. apply Qcopp_le_compat in Hneg.
      by replace (- 0)%Qc with 0%Qc in Hneg by ring. }
    by apply Qcmult_nonneg_nonneg.
  - by apply Qcmult_nonneg_nonneg.
Qed.

Lemma qsumsq_nonneg (l : list Qc) : (0 <= qsumsq l)%Qc.
Proof.
  induction l as [|e l IH]; simpl; [done|].
  apply Qcplus_nonneg_nonneg; [apply Qcsquare_nonneg|done].
Qed.

Lemma qsumsq_zero (l : list Qc) :
  (qsumsq l <= 0)%Qc → ∀ i e, l !! i = Some e → e = 0%Qc.
Proof.
  induction l as [|a l IH]; intros Hle i e Hi; [done|]. simpl in Hle.
  pose proof (Qcsquare_nonneg a) as Ha. pose proof (qsumsq_nonneg l) as Hl.
  assert (Hsum : (a * a + qsumsq l)%Qc = 0%Qc).
  { apply Qcle_antisym; [done|]. by apply Qcplus_nonneg_nonneg. }
  assert (Ha0 : (a * a)%Qc = 0%Qc).
  { apply Qcle_antisym; [|done].
    rewrite <- Hsum. rewrite <- (Qcplus_0_r (a * a)) at 1.
    by apply Qcplus_le_mono_l. }
  destruct i as [|i]; simpl in Hi.
  - injection Hi as <-. by apply Qcmult_integral in Ha0 as [?|?].
  - apply (IH ltac:(rewrite Ha0, Qcplus_0_l in Hsum; by rewrite Hsum) i e Hi).
Qed.

Lemma foldl_add_fin_list (acc : Qc) (l : list Qc) :
  foldl F.add (Fin acc) ((fun e => F.square (Fin e)) <$> l) = Fin (acc + qsumsq l)%Qc.
Proof.
  revert acc. induction l as [|e l IH]; intros acc; simpl.
  - f_equal. ring.
  - rewrite IH. f_equal. ring.
Qed.

Lemma zip_with_sub_fin (u b : list Qc) :
  zip_with F.sub (Fin <$> u) (Fin <$> b) = Fin <$> zip_with Qcminus u b.
Proof.
  revert b. induction u as [|a u IH]; intros [|c b]; simpl; try done.
  by rewrite IH.
Qed.

Lemma zip_with_add_fin (u v : list Qc) :
  zip_with F.add (Fin <$> u) (Fin <$> v) = Fin <$> zip_with Qcplus u v.
Proof.
  revert v. induction u as [|a u IH]; intros [|c v]; simpl; try done.
  by rewrite IH.
Qed.

Lemma matvec_rows_fin (qa : list (list Qc)) (qx : list Qc) :
  (fun r => dot r (Fin <$> qx)) <$> fin_rows qa
  = Fin <$> ((fun r => qdot r qx) <$> qa).
Proof.
  unfold fin_rows. rewrite <- !list_fmap_compose.
  apply list_fmap_ext. intros _ r _. simpl. apply dot_fin.
Qed.

Lemma residual_fin (a : ndarray) (qa : list (list Qc)) (qx qb : list Qc) :
  rows a = fin_rows qa →
  residual_sq a (Fin <$> qx) (Fin <$> qb)
  = Fin (qsumsq (zip_with Qcminus ((fun r => qdot r qx) <$> qa) qb)).
Proof.
  intros Ha. unfold residual_sq. rewrite Ha, matvec_rows_fin, zip_with_sub_fin.
  rewrite <- list_fmap_compose. unfold F.sum, f0.
  rewrite (foldl_add_fin_list (qc 0 1)). f_equal.
  change (qc 0 1) with 0%Qc. ring.
Qed.

Lemma leb_fin (a b : Qc) : F.leb (Fin a) (Fin b) = true → (a <= b)%Qc.
Proof.
  unfold F.leb. simpl. rewrite orb_true_iff, Qc_ltb_lt, Qc_eqb_eq.
  intros [H| ->]; [by apply Qclt_le_weak|apply Qcle_refl].
Qed.

Lemma fin_leb (a b : Qc) : (a <= b)%Qc → F.leb (Fin a) (Fin b) = true.
Proof.
  intros H. unfold F.leb. simpl. rewrite orb_true_iff, Qc_ltb_lt, Qc_eqb_eq.
  by apply Qcle_lt_or_eq in H as [?| ->]; [left|right].
Qed.

Lemma qsumsq_diag (u : list Qc) : qsumsq (zip_with Qcminus u u) = 0%Qc.
Proof.
  induction u as [|a u IH]; simpl; [done|]. rewrite IH. ring.
Qed.

(** A minimiser of the residual of a consistent system solves it. *)
Lemma least_squares_consistent (a : ndarray) (qa : list (list Qc)) (qls qd : list Qc) :
  rows a = fin_rows qa →
  F.leb (residual_sq a (Fin <$> qls) ((fun r => dot r (Fin <$> qd)) <$> rows a))
        (residual_sq a (Fin <$> qd) ((fun r => dot r (Fin <$> qd)) <$> rows a)) = true →
  ∀ i qr, qa !! i = Some qr → qdot qr qls = qdot qr qd.
Proof.
  intros Ha Hle i qr Hi. rewrite Ha, matvec_rows_fin in Hle.
  rewrite !(residual_fin a qa _ _ Ha), qsumsq_diag in Hle.
  apply leb_fin in Hle.
  pose proof (qsumsq_zero _ Hle i (qdot qr qls - qdot qr qd)%Qc) as H0.
  rewrite lookup_zip_with, !list_lookup_fmap, Hi in H0. simpl in H0.
  specialize (H0 eq_refl).
  apply Qcplus_inj_l with (- qdot qr qd)%Qc. simpl.
  rewrite Qcplus_opp_r. exact H0.
Qed.

(* ================================================================== *)
(** * C3: predicting from the inverted deposition *)
(* ================================================================== *)

Section RoundTrip.

Variable tm : pandas_time.
Variable rtp : Series → float → float → list (option Qc).
Variables (flow : Series) (apv p th R : float).
Variables (df : list df_row) (coeff : ndarray).
Hypothesis Hdc : deposition_coefficients tm rtp flow apv p th R = Ok (df, coeff).

Lemma compute_concentration_eval (dep : Series) :
  compute_concentration tm rtp dep flow apv p th R
  = (cd ← matvec coeff (values dep);
     pd_Series cd ((valid_entries flow (rtp flow apv R)).*1.*1)).
Proof using Hdc. unfold compute_concentration. by rewrite Hdc. Qed.

Lemma coeff_columns : ncols coeff = length flow.
Proof using Hdc.
  apply deposition_coefficients_inv in Hdc as [Hsc _].
  by destruct (scaled_coefficients_shape _ _ _ _ _ _ _ _ _ Hsc) as (_ & _ & _ & ?).
Qed.

Lemma coeff_rows : length (rows coeff) = nrows coeff.
Proof using Hdc.
  apply deposition_coefficients_inv in Hdc as [Hsc _].
  destruct (scaled_coefficients_shape _ _ _ _ _ _ _ _ _ Hsc) as (_ & ? & ? & _).
  congruence.
Qed.

(** Any member [x_ls + V^T w] of the solution family predicts [cout]
    again, when [x_ls] solves the system and the rows of the matrix
    annihilate the vectors of [V]. *)
Lemma assemble_reproduces (qa V : list (list Qc)) (qd qls qw : list Qc)
    (N : ndarray) (d cout : Series) :
  rows coeff = fin_rows qa →
  values d = Fin <$> qd →
  compute_concentration tm rtp d flow apv p th R = Ok cout →
  rows N = (fun j => column j (fin_rows V)) <$> seq 0 (ncols coeff) →
  ncols N = length qw →
  (∀ v, v ∈ V → length v = ncols coeff) →
  (∀ v qr, v ∈ V → qr ∈ qa → qdot qr v = 0%Qc) →
  length qls = ncols coeff →
  (∀ i qr, qa !! i = Some qr → qdot qr qls = qdot qr qd) →
  ∃ dep, assemble (Fin <$> qls) N (Fin <$> qw) (index flow) = Ok dep ∧
         compute_concentration tm rtp dep flow apv p th R = Ok cout.
Proof using Hdc.
  intros Hqa Hqd Hconc HN HNc HV Hnull Hls Hsolve.
  pose proof coeff_columns as Hcols.
  set (qnw := (fun j => qdot (qcolumn j V) qw) <$> seq 0 (ncols coeff)).
  assert (Hnw : (fun r => dot r (Fin <$> qw)) <$> rows N = Fin <$> qnw).
  { rewrite HN. unfold qnw. rewrite <- !list_fmap_compose.
    apply list_fmap_ext. intros _ j _. simpl. by rewrite column_fin, dot_fin. }
  assert (Hqnw : length qnw = ncols coeff).
  { unfold qnw. by rewrite length_fmap, length_seq. }
  unfold assemble, matvec. rewrite length_fmap.
  case_decide; [|done]. cbn [mbind result_bind]. rewrite Hnw.
  unfold vadd. rewrite !length_fmap.
  case_decide; [|lia]. cbn [mbind result_bind]. rewrite zip_with_add_fin.
  set (qdep := zip_with Qcplus qls qnw).
  assert (Hqdep : length qdep = length flow).
  { unfold qdep. rewrite length_zip_with. lia. }
  unfold pd_Series. rewrite length_fmap, length_index.
  case_decide; [|lia]. eexists. split; [reflexivity|].
  rewrite compute_concentration_eval in Hconc |- *.
  rewrite Hqd in Hconc.
  unfold values. rewrite snd_zip by (rewrite length_fmap, length_index; lia).
  unfold matvec in Hconc |- *.
  rewrite length_fmap in Hconc |- *.
  destruct (decide (ncols coeff = length qd)) as [_|]; [|done].
  destruct (decide (ncols coeff = length qdep)) as [_|]; [|lia].
  rewrite Hqa, matvec_rows_fin in Hconc |- *.
  replace ((fun r => qdot r qdep) <$> qa) with ((fun r => qdot r qd) <$> qa); [done|].
  apply list_fmap_ext. intros i qr Hi. unfold qdep.
  rewrite qdot_add_r by lia. rewrite (Hsolve i qr Hi).
  unfold qnw. rewrite qdot_combination.
  - ring.
  - done.
  - intros v Hv. apply Hnull; [done|]. by eapply list_elem_of_lookup_2.
Qed.

End RoundTrip.

Lemma fin_rows_elem (q : list Qc) (qs : list (list Qc)) :
  q ∈ qs → (Fin <$> q) ∈ fin_rows qs.
Proof. intros H. unfold fin_rows. apply list_elem_of_fmap. by exists q. Qed.

Lemma kept_vectors_rows (s0 : float) (s : list float) (vh : ndarray) (atol rtol : float) :
  ∃ nnz,
    rows (kept_vectors s0 s vh atol rtol)
    = (fun j => column j (drop nnz (rows vh))) <$> seq 0 (ncols vh) ∧
    kept_vectors s0 s vh atol rtol = transpose (drop_rows nnz vh).
Proof. eexists. split; reflexivity. Qed.


Lemma residual_nonneg (a : ndarray) (y b : list float) :
  finite_matrix a → finite y → finite b →
  ∃ q, residual_sq a y b = Fin q ∧ (0 <= q)%Qc.
Proof.
  intros Ha Hy Hb.
  destruct (finite_matrix_inv _ Ha) as [qa Hqa].
  destruct (finite_inv _ Hy) as [qy ->]. destruct (finite_inv _ Hb) as [qb ->].
  eexists. split; [by apply residual_fin|apply qsumsq_nonneg].
Qed.


Example round_trip3 :
  compute_concentration time_ns rt3
    [(day 0, Fin (qc 4 1)); (day 1, Fin (qc 4 1)); (day 2, Fin (qc 4 1))] flow3
    (Fin (qc 5 2)) (Fin (qc 1 2)) (Fin (qc 2 1)) (Fin (qc 1 1)) = Ok cout3.
Proof. by_compute. Qed.


(* ================================================================== *)
(** * deposition_coefficients: when the loop can fail *)
(* ================================================================== *)

(** The loop fails only by reading [flow.index[itinf]] past the end. *)
Lemma fill_dt_total (flow_index : list Timestamp) (df_out : list df_row) :
  (∀ row, row ∈ df_out →
     searchsorted flow_index (row_dates_infiltration_retarded row) < length flow_index) →
  ∀ iout dt, ∃ dt', fill_dt flow_index df_out iout dt = Ok dt'.
Proof.
  induction df_out as [|row rest IH]; intros Hin iout dt; [by eexists|].
  cbn [fill_dt].
  destruct (lookup_lt_is_Some_2 flow_index _ (Hin row ltac:(left))) as [t ->].
  apply IH. intros row' Hrow'. apply Hin. by right.
Qed.

Lemma fill_dt_index_error (flow_index : list Timestamp) (df_out : list df_row) :
  (∃ row, row ∈ df_out ∧
     length flow_index ≤ searchsorted flow_index (row_dates_infiltration_retarded row)) →
  ∀ iout dt, fill_dt flow_index df_out iout dt = Raise IndexError.
Proof.
  induction df_out as [|row rest IH]; intros (bad & Hbad & Hge) iout dt.
  - by apply elem_of_nil in Hbad.
  - cbn [fill_dt].
    destruct (flow_index !! _) as [t|] eqn:Ht; [|done].
    apply IH. exists bad. split; [|done].
    apply elem_of_cons in Hbad as [->|?]; [|done].
    apply lookup_lt_Some in Ht. lia.
Qed.

(** The rows of the table carry dates of the flow index. *)
Lemma make_df_out_row (tm : pandas_time) (flow : Series) (rt : list (option Qc))
    (p th R : float) (df0 : list df_row) (row : df_row) :
  make_df_out tm flow rt p th R = Ok df0 →
  row ∈ df0 → row_date row ∈ index flow.
Proof.
  intros Hdf Hrow. apply list_elem_of_lookup_1 in Hrow as [k Hk].
  destruct (make_df_out_date_in_index _ _ _ _ _ _ _ _ _ Hdf Hk) as [j Hj].
  by eapply list_elem_of_lookup_2.
Qed.

Lemma searchsorted_le_member (arr : list Timestamp) (key t : Timestamp) :
  increasing arr → t ∈ arr → (key <= t)%Qc → searchsorted arr key < length arr.
Proof.
  intros Hinc Ht Hle. apply list_elem_of_lookup_1 in Ht as [j Hj].
  destruct (searchsorted_spec arr key Hinc) as (_ & Hbelow & _).
  pose proof (lookup_lt_Some _ _ _ Hj).
  destruct (decide (searchsorted arr key ≤ j)) as [|Hgt]; [lia|].
  assert (Hlt : j < searchsorted arr key) by lia.
  apply (Hbelow _ _ Hlt) in Hj. by apply Qcle_not_lt in Hle.
Qed.

Lemma searchsorted_above_all (arr : list Timestamp) (key : Timestamp) :
  increasing arr → (∀ t, t ∈ arr → (t < key)%Qc) → searchsorted arr key = length arr.
Proof.
  intros Hinc Hall. destruct (searchsorted_spec arr key Hinc) as (Hle & _ & Habove).
  destruct (decide (searchsorted arr key = length arr)) as [|Hne]; [done|].
  destruct (lookup_lt_is_Some_2 arr (searchsorted arr key)) as [a Ha]; [lia|].
  pose proof (Habove _ _ (Nat.le_refl _) Ha) as H1.
  pose proof (Hall a ltac:(by eapply list_elem_of_lookup_2)) as H2.
  by apply Qcle_not_lt in H1.
Qed.

(** The steps of [deposition_coefficients] before the loop: a provider that
    is not aligned to the flow index fails the boolean mask, and an error of
    the time conversion of line 150 is the error of the call. *)
Lemma deposition_coefficients_table_error
    (tm : pandas_time) (rtp : Series → float → float → list (option Qc)) (flow : Series)
    (apv p th R : float) (e : exn) :
  length (rtp flow apv R) = length flow →
  make_df_out tm flow (rtp flow apv R) p th R = Raise e →
  deposition_coefficients tm rtp flow apv p th R = Raise e.
Proof.
  intros Hlen He. unfold deposition_coefficients, scaled_coefficients.
  case_decide; [|done]. by rewrite He.
Qed.

(** With a strictly increasing flow index and a provider aligned to it,
    [deposition_coefficients] raises the error of the time conversion of
    line 150 when that fails.  When the table is built and no infiltration
    timestamp in it lies after its date, the loop over the rows never reads
    past the end of the index: the scaled matrix is built, and the only
    error the call can still raise is the one about NaN coefficients. *)
Theorem coefficients_built_without_index_error
    (tm : pandas_time) (rtp : Series → float → float → list (option Qc)) (flow : Series)
    (apv p th R : float) :
  increasingb (index flow) = true →
  length (rtp flow apv R) = length flow →
  (∀ e, make_df_out tm flow (rtp flow apv R) p th R = Raise e →
        deposition_coefficients tm rtp flow apv p th R = Raise e) ∧
  (∀ df0,
     make_df_out tm flow (rtp flow apv R) p th R = Ok df0 →
     (∀ row, row ∈ df0 → (row_dates_infiltration_retarded row <= row_date row)%Qc) →
     ∃ df coeff,
       scaled_coefficients tm rtp flow apv p th R = Ok (df, coeff) ∧
       deposition_coefficients tm rtp flow apv p th R
       = if any_isnan coeff then Raise (ValueError "Coefficients contain nan values.")
         else Ok (df, coeff)).
Proof.
  intros Hinc Hlen. apply increasingb_increasing in Hinc. split.
  - intros e He. by apply deposition_coefficients_table_error.
  - intros df0 Hdf0 Hle.
    unfold deposition_coefficients.
    rewrite (scaled_coefficients_eval _ _ _ _ _ _ _ _ Hlen Hdf0).
    destruct (fill_dt_total (index flow) df0) with (iout := 0)
      (dt := np_zeros2 (length df0) (length flow)) as [dt ->].
    { intros row Hrow.
      apply (searchsorted_le_member _ _ (row_date row)); [done| |by apply Hle].
      by eapply make_df_out_row. }
    eexists _, _. split; reflexivity.
Qed.

Lemma coefficients_built_without_index_error_witness :
  ∃ df coeff,
    scaled_coefficients time_ns rt4 flow4 (Fin (qc 150 1)) (Fin (qc 1 2)) (Fin (qc 2 1)) (Fin (qc 1 1))
    = Ok (df, coeff) ∧
    deposition_coefficients time_ns rt4 flow4 (Fin (qc 150 1)) (Fin (qc 1 2)) (Fin (qc 2 1)) (Fin (qc 1 1))
    = if any_isnan coeff then Raise (ValueError "Coefficients contain nan values.")
      else Ok (df, coeff).
Proof.
  apply (proj2 (coefficients_built_without_index_error time_ns rt4 flow4
                  (Fin (qc 150 1)) (Fin (qc 1 2)) (Fin (qc 2 1)) (Fin (qc 1 1))
                  ltac:(vm_compute; reflexivity) eq_refl) df4).
  - by_compute.
  - intros row Hrow. unfold df4 in Hrow. rewrite !elem_of_cons, elem_of_nil in Hrow.
    destruct Hrow as [->|[->|[->|[]]]]; by vm_compute.
Defined.

(** A residence time too large for a Timedelta: the conversion raises, and
    so does [deposition_coefficients]. *)
Example out_of_bounds_residence_time :
  deposition_coefficients time_ns rt_huge flow3
    (Fin (qc 5 2)) (Fin (qc 1 2)) (Fin (qc 2 1)) (Fin (qc 1 1))
  = Raise OutOfBoundsTimedelta.
Proof. by_compute. Qed.

(** A negative residence time below one tick converts to a zero Timedelta:
    the infiltration timestamp is the date, inside the index, and a matrix
    is returned. *)
Example negative_sub_tick_residence_time :
  deposition_coefficients time_ns rt_neg_sub_tick flow3
    (Fin (qc 5 2)) (Fin (qc 1 2)) (Fin (qc 2 1)) (Fin (qc 1 1))
  = Ok ([mk_df_row (day 2) (qc (-1) 1000000000000000) (Fin (qc 1 1)) (day 2) (Fin (qc 1 1))],
        mk_ndarray 1 3 [[f0; f0; f0]]).
Proof. by_compute. Qed.

(** When the table is built and some infiltration timestamp in it lies
    after every timestamp of the flow index (a residence time that converts
    to a negative Timedelta reaching beyond the last date),
    [deposition_coefficients] raises IndexError: the binary search returns
    the length of the index and [flow.index[itinf]] is out of bounds. *)
Theorem coefficients_index_error
    (tm : pandas_time) (rtp : Series → float → float → list (option Qc)) (flow : Series)
    (apv p th R : float) (df0 : list df_row) (row : df_row) :
  increasingb (index flow) = true →
  length (rtp flow apv R) = length flow →
  make_df_out tm flow (rtp flow apv R) p th R = Ok df0 →
  row ∈ df0 →
  (∀ t', t' ∈ index flow → (t' < row_dates_infiltration_retarded row)%Qc) →
  deposition_coefficients tm rtp flow apv p th R = Raise IndexError.
Proof.
  intros Hinc Hlen Hdf0 Hrow Hall. apply increasingb_increasing in Hinc.
  unfold deposition_coefficients.
  rewrite (scaled_coefficients_eval _ _ _ _ _ _ _ _ Hlen Hdf0).
  rewrite fill_dt_index_error; [done|].
  exists row. split; [done|]. by rewrite searchsorted_above_all.
Qed.

Lemma coefficients_index_error_witness :
  deposition_coefficients time_ns rt_ahead flow3 (Fin (qc 5 2)) (Fin (qc 1 2)) (Fin (qc 2 1)) (Fin (qc 1 1))
  = Raise IndexError.
Proof.
  apply (coefficients_index_error time_ns rt_ahead flow3 (Fin (qc 5 2)) (Fin (qc 1 2)) (Fin (qc 2 1))
           (Fin (qc 1 1))
           [mk_df_row (day 2) (qc (-1) 1) (Fin (qc 1 1)) (day 3) (Fin (qc 1 1))]
           (mk_df_row (day 2) (qc (-1) 1) (Fin (qc 1 1)) (day 3) (Fin (qc 1 1)))).
  - vm_compute. reflexivity.
  - reflexivity.
  - by_compute.
  - left.
  - intros t' Ht'. unfold index, flow3 in Ht'. simpl in Ht'.
    rewrite !elem_of_cons, elem_of_nil in Ht'.
    destruct Ht' as [->|[->|[->|[]]]]; by vm_compute.
Defined.

(* ================================================================== *)
(** * The rows of a returned coefficient matrix *)
(* ================================================================== *)

(** Row [k] of the scaled matrix is the line of [dt] of the [k]-th row of
    the table, multiplied by that row's area / flow. *)
Lemma coefficient_row_lookup
    (tm : pandas_time) (rtp : Series → float → float → list (option Qc)) (flow : Series)
    (apv p th R : float) (df : list df_row) (coeff : ndarray) (k : nat) (row : df_row) :
  increasingb (index flow) = true →
  scaled_coefficients tm rtp flow apv p th R = Ok (df, coeff) →
  df !! k = Some row →
  ∃ dtr, row_weights (index flow) row dtr ∧
         rows coeff !! k = Some (F.mul (row_darea row ⊘ row_flow row) <$> dtr).
Proof.
  intros Hinc Hsc Hk. pose proof Hk as Hk'.
  apply scaled_coefficients_inv in Hsc as (df0 & dt & _ & Hdf0 & Hfill & Hdf & Hcoeff).
  rewrite Hdf, list_lookup_fmap in Hk.
  destruct (df0 !! k) as [row0|] eqn:Hk0; [|done].
  simpl in Hk. injection Hk as Hrow.
  destruct (fill_dt_row_weights _ _ _ _ _ _ _ _ _ _ Hinc Hdf0 Hfill Hk0) as (dtr & Hdtr & Hw).
  exists dtr. split; [by subst row|].
  rewrite Hcoeff. simpl.
  rewrite lookup_zip_with, list_lookup_fmap, Hk', Hdtr. done.
Qed.

(** In a matrix that [deposition_coefficients] returns, row [k] is zero
    outside the columns [i_inf .. i_extr] of its timestamp: the predicted
    concentration depends on no deposition before the infiltration grid
    point and, for a non-negative residence time, on none after the
    extraction date. *)
Theorem coefficient_row_support
    (tm : pandas_time) (rtp : Series → float → float → list (option Qc)) (flow : Series)
    (apv p th R : float) (df : list df_row) (coeff : ndarray) (k : nat) (row : df_row) :
  increasingb (index flow) = true →
  deposition_coefficients tm rtp flow apv p th R = Ok (df, coeff) →
  df !! k = Some row →
  ∃ r, rows coeff !! k = Some r ∧ length r = length flow ∧
       ∀ j, j < length flow →
            j ≠ searchsorted (index flow) (row_dates_infiltration_retarded row) →
            ¬ (searchsorted (index flow) (row_dates_infiltration_retarded row) < j
               ≤ searchsorted (index flow) (row_date row)) →
            r !! j = Some f0.
Proof.
  intros Hinc Hdc Hk. apply deposition_coefficients_inv in Hdc as [Hsc Hnan].
  destruct (coefficient_row_lookup _ _ _ _ _ _ _ _ _ _ _ Hinc Hsc Hk) as (dtr & Hw & Hr).
  eexists. split; [exact Hr|].
  destruct Hw as (Hlen & _ & _ & _ & _ & Hzero).
  split; [by rewrite length_fmap, Hlen, length_index|].
  intros j Hj Hne Hout.
  rewrite list_lookup_fmap, (Hzero j) by (by rewrite ?length_index). simpl. f_equal.
  apply mul_zero_not_nan.
  apply (proj1 (any_isnan_false coeff) Hnan
           (F.mul (row_darea row ⊘ row_flow row) <$> dtr)).
  - by eapply list_elem_of_lookup_2.
  - apply list_elem_of_fmap. exists f0. split; [done|].
    apply (list_elem_of_lookup_2 _ j). apply Hzero; by rewrite ?length_index.
Qed.

Lemma coefficient_row_support_witness :
  ∃ r, rows dt4 !! 1 = Some r ∧ length r = length flow4 ∧
       ∀ j, j < length flow4 →
            j ≠ searchsorted (index flow4) (row_dates_infiltration_retarded row4_1) →
            ¬ (searchsorted (index flow4) (row_dates_infiltration_retarded row4_1) < j
               ≤ searchsorted (index flow4) (row_date row4_1)) →
            r !! j = Some f0.
Proof.
  apply (coefficient_row_support time_ns rt4 flow4 (Fin (qc 150 1)) (Fin (qc 1 2)) (Fin (qc 2 1))
           (Fin (qc 1 1)) df4 dt4 1 row4_1).
  - vm_compute. reflexivity.
  - by_compute.
  - by_compute.
Defined.

(** ** The scale factor *)

Lemma sgn_pos (d : Qc) : (0 < d)%Qc → F.sgn d = Gt.
Proof. intros H. unfold F.sgn. change (qc 0 1) with 0%Qc. by apply Qcgt_alt. Qed.



(* ================================================================== *)
(** * The rows of [dt] on a daily index *)
(* ================================================================== *)

Lemma daily_tail (a : Timestamp) (idx : list Timestamp) : daily (a :: idx) → daily idx.
Proof. intros H j t t' Hj Hj'. by apply (H (S j) t t'). Qed.

Lemma daily_increasingb (idx : list Timestamp) : daily idx → increasingb idx = true.
Proof.
  induction idx as [|a idx IH]; intros Hd; [done|].
  destruct idx as [|b idx]; [done|].
  cbn [increasingb]. apply andb_true_intro. split.
  - apply Qc_ltb_lt. rewrite (Hd 0 a b eq_refl eq_refl).
    rewrite <- (Qcplus_0_r a) at 1. by apply Qcplus_lt_mono_l.
  - apply IH. by eapply daily_tail.
Qed.

Lemma daily_offset (idx : list Timestamp) (i m : nat) (t t' : Timestamp) :
  daily idx → idx !! i = Some t → idx !! (i + m) = Some t' → t' = (t + qnat m)%Qc.
Proof.
  intros Hd Hi. revert t'. induction m as [|m IH]; intros t' Hm.
  - rewrite Nat.add_0_r in Hm. simpl. rewrite Qcplus_0_r. congruence.
  - replace (i + S m) with (S (i + m)) in Hm by lia.
    destruct (lookup_lt_is_Some_2 idx (i + m)) as [u Hu].
    { apply lookup_lt_Some in Hm. lia. }
    rewrite (Hd _ _ _ Hu Hm), (IH u Hu). simpl. ring.
Qed.

Lemma sum_fin_acc (acc : Qc) (l : list Qc) :
  foldl F.add (Fin acc) (Fin <$> l) = Fin (acc + qsum l)%Qc.
Proof.
  revert acc. induction l as [|a l IH]; intros acc; simpl.
  - f_equal. ring.
  - rewrite IH. f_equal. ring.
Qed.

Lemma sum_fin (l : list Qc) : F.sum (Fin <$> l) = Fin (qsum l).
Proof.
  unfold F.sum, f0. rewrite sum_fin_acc. f_equal.
  change (qc 0 1) with 0%Qc. ring.
Qed.

Lemma qsum_app (l1 l2 : list Qc) : qsum (l1 ++ l2) = (qsum l1 + qsum l2)%Qc.
Proof. induction l1 as [|a l1 IH]; simpl; [ring|]. rewrite IH. ring. Qed.

Lemma qsum_constant (h : nat → Qc) (c : Qc) (k : nat) :
  ∀ s, (∀ j, s ≤ j < s + k → h j = c) → qsum (h <$> seq s k) = (qnat k * c)%Qc.
Proof.
  induction k as [|k IH]; intros s Hc; [simpl; ring|].
  change (seq s (S k)) with (s :: seq (S s) k). rewrite fmap_cons. cbn [qsum qnat].
  rewrite (IH (S s)) by (intros j Hj; apply Hc; lia).
  rewrite (Hc s) by lia. ring.
Qed.

(** The sum of a row that is [w] at [a], 1 on the [m] columns after it and
    0 elsewhere. *)
Lemma qsum_row (h : nat → Qc) (w : Qc) (a m rest : nat) :
  h a = w →
  (∀ j, a < j ≤ a + m → h j = 1%Qc) →
  (∀ j, j < a ∨ a + m < j → h j = 0%Qc) →
  qsum (h <$> seq 0 (a + (1 + (m + rest)))) = (w + qnat m)%Qc.
Proof.
  intros Hw Hone Hzero.
  rewrite !seq_app, !fmap_app, !qsum_app.
  rewrite (qsum_constant h 0%Qc a 0) by (intros j Hj; apply Hzero; lia).
  rewrite (qsum_constant h 1%Qc m) by (intros j Hj; apply Hone; lia).
  rewrite (qsum_constant h 0%Qc rest) by (intros j Hj; apply Hzero; lia).
  simpl. rewrite Hw. ring.
Qed.

(** A row of [dt] whose infiltration timestamp is not after its date, as
    exact values. *)
Lemma row_weights_exact (flow_index : list Timestamp) (row : df_row) (r : list float) :
  row_weights flow_index row r →
  (row_dates_infiltration_retarded row <= row_date row)%Qc →
  ∃ (h : nat → Qc) (t : Timestamp) (m rest : nat),
    let a := searchsorted flow_index (row_dates_infiltration_retarded row) in
    r = Fin <$> (h <$> seq 0 (a + (1 + (m + rest)))) ∧
    flow_index !! a = Some t ∧
    flow_index !! (a + m) = Some (row_date row) ∧
    h a = (t - row_dates_infiltration_retarded row)%Qc ∧
    (∀ j, a < j ≤ a + m → h j = 1%Qc) ∧
    (∀ j, j < a ∨ a + m < j → h j = 0%Qc).
Proof.
  intros (Hlen & Hextr & Hbelow & (t & Ht & Hle & Hw) & Hones & Hzero) Hrt.
  set (a := searchsorted flow_index (row_dates_infiltration_retarded row)) in *.
  set (e := searchsorted flow_index (row_date row)) in *.
  assert (Hae : a ≤ e).
  { destruct (decide (a ≤ e)) as [|Hgt]; [done|]. exfalso.
    assert (Hlt : e < a) by lia.
    pose proof (Hbelow _ _ Hlt Hextr) as Hcontra.
    by apply (Qclt_not_le _ _ Hcontra). }
  pose proof (lookup_lt_Some _ _ _ Hextr) as He.
  set (h := fun j => if decide (j = a) then (t - row_dates_infiltration_retarded row)%Qc
                     else if decide (a < j ≤ e) then 1%Qc else 0%Qc).
  exists h, t, (e - a), (length flow_index - S e). cbn zeta.
  replace (a + (e - a)) with e by lia.
  replace (a + (1 + (e - a + (length flow_index - S e)))) with (length flow_index) by lia.
  split; [|split; [done|split; [done|split; [|split]]]].
  - apply list_eq. intros j. rewrite !list_lookup_fmap.
    destruct (decide (j < length flow_index)) as [Hj|Hj].
    + rewrite lookup_seq_lt by done. simpl. unfold h.
      destruct (decide (j = a)) as [->|Hne]; [done|].
      destruct (decide (a < j ≤ e)) as [Hin|Hout].
      * by rewrite Hones.
      * by rewrite Hzero.
    + rewrite lookup_seq_ge by lia. simpl. apply lookup_ge_None. lia.
  - unfold h. by rewrite decide_True.
  - intros j Hj. unfold h. rewrite decide_False by lia. by rewrite decide_True.
  - intros j Hj. unfold h. rewrite decide_False by lia. by rewrite decide_False by lia.
Qed.



(* ================================================================== *)
(** * compute_concentration *)
(* ================================================================== *)

Lemma length_values (s : Series) : length (values s) = length s.
Proof. unfold values. by rewrite length_fmap. Qed.

(** What [compute_concentration] returns for a deposition series as long as
    the flow series. *)
Lemma compute_concentration_ok
    (tm : pandas_time) (rtp : Series → float → float → list (option Qc)) (flow : Series)
    (apv p th R : float) (df : list df_row) (coeff : ndarray) (dep : Series) :
  deposition_coefficients tm rtp flow apv p th R = Ok (df, coeff) →
  length dep = length flow →
  compute_concentration tm rtp dep flow apv p th R
  = Ok (zip (retained_timestamps flow (rtp flow apv R))
            ((fun r => dot r (values dep)) <$> rows coeff)) ∧
  length (retained_timestamps flow (rtp flow apv R)) = length (rows coeff).
Proof.
  intros Hdc Hlen.
  rewrite (compute_concentration_eval tm rtp flow apv p th R df coeff Hdc).
  pose proof (coeff_columns tm rtp flow apv p th R df coeff Hdc) as Hc.
  apply deposition_coefficients_inv in Hdc as [Hsc _].
  destruct (scaled_coefficients_shape _ _ _ _ _ _ _ _ _ Hsc) as (Hdates & _ & Hrows & _).
  assert (Hn : length (retained_timestamps flow (rtp flow apv R)) = length (rows coeff)).
  { by rewrite <- Hdates, length_fmap. }
  split; [|done].
  unfold matvec. rewrite length_values.
  destruct (decide (ncols coeff = length dep)) as [_|]; [|congruence].
  cbn [mbind result_bind]. unfold pd_Series.
  rewrite valid_entries_dates, length_fmap.
  destruct (decide _) as [_|]; [done|congruence].
Qed.

(** After the coefficients are built, [compute_concentration] returns a
    series exactly when the deposition series is as long as the flow
    series; the series is then indexed by the timestamps with a residence
    time, in flow order, and holds the matrix-vector product. *)
Theorem compute_concentration_alignment
    (tm : pandas_time) (rtp : Series → float → float → list (option Qc)) (flow : Series)
    (apv p th R : float) (df : list df_row) (coeff : ndarray) (dep : Series) :
  deposition_coefficients tm rtp flow apv p th R = Ok (df, coeff) →
  (length dep = length flow →
   ∃ cout, compute_concentration tm rtp dep flow apv p th R = Ok cout ∧
           index cout = retained_timestamps flow (rtp flow apv R) ∧
           values cout = (fun r => dot r (values dep)) <$> rows coeff) ∧
  (length dep ≠ length flow →
   ∃ e, compute_concentration tm rtp dep flow apv p th R = Raise e).
Proof.
  intros Hdc. split.
  - intros Hlen.
    destruct (compute_concentration_ok tm rtp flow apv p th R df coeff dep Hdc Hlen)
      as [-> Hn].
    eexists. split; [reflexivity|]. unfold index, values at 1. split.
    + apply fst_zip. rewrite length_fmap. lia.
    + apply snd_zip. rewrite length_fmap. lia.
  - intros Hlen.
    rewrite (compute_concentration_eval tm rtp flow apv p th R df coeff Hdc).
    unfold matvec. rewrite length_values,
      (coeff_columns tm rtp flow apv p th R df coeff Hdc).
    destruct (decide (length flow = length dep)) as [|_]; [congruence|].
    by eexists.
Qed.

Lemma compute_concentration_alignment_witness :
  (length deposition3 = length flow3 →
   ∃ cout, compute_concentration time_ns rt3 deposition3 flow3
             (Fin (qc 5 2)) (Fin (qc 1 2)) (Fin (qc 2 1)) (Fin (qc 1 1)) = Ok cout ∧
           index cout = retained_timestamps flow3
                          (rt3 flow3 (Fin (qc 5 2)) (Fin (qc 1 1))) ∧
           values cout = (fun r => dot r (values deposition3)) <$> rows a13) ∧
  (length deposition3 ≠ length flow3 →
   ∃ e, compute_concentration time_ns rt3 deposition3 flow3
          (Fin (qc 5 2)) (Fin (qc 1 2)) (Fin (qc 2 1)) (Fin (qc 1 1)) = Raise e).
Proof.
  apply (compute_concentration_alignment time_ns rt3 flow3 (Fin (qc 5 2)) (Fin (qc 1 2))
           (Fin (qc 2 1)) (Fin (qc 1 1))
           [mk_df_row (day 2) (qc 5 2) (Fin (qc 1 1)) (qc (-1) 2) (Fin (qc 1 1))] a13).
  by_compute.
Defined.

Lemma qsum_scale (s : Qc) (l : list Qc) :
  qsum (Qcmult s <$> l) = (s * qsum l)%Qc.
Proof.
  induction l as [|a l IH]; [simpl; ring|].
  rewrite fmap_cons. cbn [qsum]. rewrite IH. ring.
Qed.

Lemma qdot_replicate (u : list Qc) (c : Qc) :
  qdot u (replicate (length u) c) = (qsum u * c)%Qc.
Proof. induction u as [|a u IH]; simpl; [ring|]. rewrite IH. ring. Qed.





(* ================================================================== *)
(** * nullspace: the tolerance and the number of columns *)
(* ================================================================== *)

(** With the default tolerances ([atol = 1e-13], [rtol = 0]) the threshold
    is [1e-13] whatever the largest singular value is, also when it is
    infinite or NaN: the basis [nullspace] returns is [vh[nnz:]] transposed
    with [nnz] the number of singular values at or above [1e-13]. *)
Theorem nullspace_default_tolerance
    (svd : svd_fn) (a u : ndarray)
    (s0 : float) (s : list float) (vh : ndarray) :
  svd a = Ok (u, s0 :: s, vh) →
  nullspace svd a atol_default rtol_default
  = mk_traced [CallSvd]
      (Ok (transpose
             (drop_rows
                (length (filter (fun sv => F.geb sv atol_default = true) (s0 :: s))) vh))).
Proof.
  intros Hsvd. rewrite (nullspace_run svd a _ _ u s0 s vh Hsvd). unfold kept_vectors.
  assert (Htol : F.py_max atol_default (rtol_default ⊗ s0) = atol_default).
  { destruct s0 as [q| | |]; reflexivity. }
  by rewrite Htol.
Qed.

Lemma nullspace_default_tolerance_witness :
  nullspace svd13 a13 atol_default rtol_default
  = mk_traced [CallSvd]
      (Ok (transpose
             (drop_rows
                (length (filter (fun sv => F.geb sv atol_default = true) [Fin (qc 3 2)]))
                vh13))).
Proof.
  apply (nullspace_default_tolerance svd13 a13 (mk_ndarray 1 1 [[f1]])). reflexivity.
Defined.

(** The basis [nullspace] returns has one row per column of [vh] and
    between [rows(vh) - len(s)] and [rows(vh)] columns: a matrix with fewer
    rows than columns (so fewer singular values than rows of [vh]) always
    leaves free weights to the optimizer. *)
Theorem nullspace_column_count
    (svd : svd_fn) (a u : ndarray)
    (atol rtol s0 : float) (s : list float) (vh : ndarray) :
  svd a = Ok (u, s0 :: s, vh) →
  ∃ N, nullspace svd a atol rtol = mk_traced [CallSvd] (Ok N) ∧
       nrows N = ncols vh ∧ length (rows N) = ncols vh ∧
       nrows vh - length (s0 :: s) ≤ ncols N ≤ nrows vh.
Proof.
  intros Hsvd. rewrite (nullspace_run svd a atol rtol u s0 s vh Hsvd).
  eexists. split; [reflexivity|]. unfold kept_vectors. cbn [nrows ncols rows transpose drop_rows].
  split; [done|]. split; [by rewrite length_fmap, length_seq|].
  pose proof (length_filter (fun sv => F.geb sv (F.py_max atol (rtol ⊗ s0)) = true) (s0 :: s)).
  lia.
Qed.

Lemma nullspace_column_count_witness :
  ∃ N, nullspace svd13 a13 atol_default rtol_default = mk_traced [CallSvd] (Ok N) ∧
       nrows N = ncols vh13 ∧ length (rows N) = ncols vh13 ∧
       nrows vh13 - length [Fin (qc 3 2)] ≤ ncols N ≤ nrows vh13.
Proof.
  apply (nullspace_column_count svd13 a13 (mk_ndarray 1 1 [[f1]])). reflexivity.
Defined.

(* ================================================================== *)
(** * compute_deposition: calls, errors and the result *)
(* ================================================================== *)

Lemma assemble_index (ls : list float) (N : ndarray) (w : list float)
    (idx : list Timestamp) (dep : Series) :
  assemble ls N w idx = Ok dep → index dep = idx.
Proof.
  unfold assemble. destruct (matvec N w) as [nx|e]; [|done]. cbn [mbind result_bind].
  destruct (vadd ls nx) as [d|e]; [|done]. cbn [mbind result_bind].
  unfold pd_Series. case_decide as Hlen; [|done]. intros [= <-].
  unfold index. apply fst_zip. lia.
Qed.

(** Whatever its arguments, [compute_deposition] calls the external
    routines in the order lstsq, svd, minimize, minimize and never more
    than that.  When it returns a series, the series is on the flow index,
    and exactly one minimization has run for the objective
    "squared_lengths", exactly two for any other. *)
Theorem compute_deposition_calls
    (tm : pandas_time) (rtp : Series → float → float → list (option Qc))
    (lstsq : lstsq_fn)
    (svd : svd_fn)
    (minimize : minimize_fn)
    (cout flow : Series) (apv p th R : float) (obj : py_objective) :
  trace (compute_deposition tm rtp lstsq svd minimize cout flow apv p th R obj)
    `prefix_of` [CallLstsq; CallSvd; CallMinimize; CallMinimize] ∧
  ∀ dep,
    outcome (compute_deposition tm rtp lstsq svd minimize cout flow apv p th R obj) = Ok dep →
    index dep = index flow ∧
    trace (compute_deposition tm rtp lstsq svd minimize cout flow apv p th R obj)
    = if objective_is obj "squared_lengths"
      then [CallLstsq; CallSvd; CallMinimize]
      else [CallLstsq; CallSvd; CallMinimize; CallMinimize].
Proof.
  assert (P3 : [CallLstsq; CallSvd; CallMinimize]
                 `prefix_of` [CallLstsq; CallSvd; CallMinimize; CallMinimize])
    by (by exists [CallMinimize]).
  destruct (deposition_coefficients tm rtp flow apv p th R) as [[df coeff]|e] eqn:Hdc.
  2:{ unfold compute_deposition. rewrite Hdc. cbn. split; [apply prefix_nil|done]. }
  destruct (decide (length cout = nrows coeff)) as [Hlen|Hlen].
  2:{ unfold compute_deposition. rewrite Hdc.
      cbn [lift mbind traced_bind outcome trace].
      destruct (decide (length cout ≠ nrows coeff)) as [_|]; [|done].
      cbn. split; [apply prefix_nil|done]. }
  destruct (lstsq coeff (values cout)) as [ls|e] eqn:Hls.
  2:{ unfold compute_deposition. rewrite Hdc.
      cbn [lift mbind traced_bind outcome trace].
      destruct (decide (length cout ≠ nrows coeff)) as [|_]; [done|].
      rewrite Hls. cbn.
      split; [by exists [CallSvd; CallMinimize; CallMinimize]|done]. }
  assert (Hearly : ∀ e,
            nullspace svd coeff atol_default rtol_default = mk_traced [CallSvd] (Raise e) →
            compute_deposition tm rtp lstsq svd minimize cout flow apv p th R obj
            = mk_traced [CallLstsq; CallSvd] (Raise e)).
  { intros e He. unfold compute_deposition. rewrite Hdc.
    cbn [lift mbind traced_bind outcome trace].
    destruct (decide (length cout ≠ nrows coeff)) as [|_]; [done|].
    rewrite Hls. cbn [external mbind traced_bind outcome trace app].
    by rewrite He. }
  assert (P2 : [CallLstsq; CallSvd]
                 `prefix_of` [CallLstsq; CallSvd; CallMinimize; CallMinimize])
    by (by exists [CallMinimize; CallMinimize]).
  destruct (svd coeff) as [[[u s] vh]|e] eqn:Hsvd.
  2:{ rewrite (Hearly e); [by split|]. unfold nullspace. by rewrite Hsvd. }
  destruct s as [|s0 s].
  { rewrite (Hearly IndexError); [by split|]. unfold nullspace. by rewrite Hsvd. }
  rewrite (compute_deposition_run tm rtp lstsq svd minimize cout flow apv p th R obj
             df coeff ls u s0 s vh Hdc Hlen Hls Hsvd).
  cbn zeta. destruct (minimize objective_squared_lengths _ _) as [res|e]; [|by split].
  destruct (success res); [|by split].
  assert (Hsecond : ∀ r : result OptimizeResult,
            trace (after_second_minimize ls (kept_vectors s0 s vh atol_default rtol_default)
                     (index flow) r)
              `prefix_of` [CallLstsq; CallSvd; CallMinimize; CallMinimize] ∧
            ∀ dep,
              outcome (after_second_minimize ls
                         (kept_vectors s0 s vh atol_default rtol_default) (index flow) r)
              = Ok dep →
              index dep = index flow ∧
              trace (after_second_minimize ls
                       (kept_vectors s0 s vh atol_default rtol_default) (index flow) r)
              = [CallLstsq; CallSvd; CallMinimize; CallMinimize]).
  { intros r. unfold after_second_minimize. cbn [trace outcome]. split; [done|].
    intros dep Hdep. split; [|done].
    destruct r as [res2|e]; [|done]. by apply assemble_index in Hdep. }
  destruct (objective_is obj "squared_lengths").
  { cbn [trace outcome]. split; [done|]. intros dep Hdep.
    by apply assemble_index in Hdep. }
  destruct (objective_is obj "summed_lengths"); [apply Hsecond|].
  destruct obj as [name|f|other]; cbn [trace outcome]; try by split.
  apply Hsecond.
Qed.

(** When the first minimization reports failure, [compute_deposition] raises
    ValueError("Optimization failed: " + message) after lstsq, svd and that
    one minimization, whatever the objective is (also an unknown one). *)
Theorem first_stage_failure_raises
    (tm : pandas_time) (rtp : Series → float → float → list (option Qc))
    (lstsq : lstsq_fn) (svd : svd_fn) (minimize : minimize_fn)
    (cout flow : Series) (apv p th R : float) (obj : py_objective)
    (df : list df_row) (coeff : ndarray) (ls : list float)
    (u : ndarray) (s0 : float) (s : list float) (vh : ndarray)
    (res : OptimizeResult) :
  deposition_coefficients tm rtp flow apv p th R = Ok (df, coeff) →
  length cout = nrows coeff →
  lstsq coeff (values cout) = Ok ls →
  svd coeff = Ok (u, s0 :: s, vh) →
  minimize objective_squared_lengths
    (np_zeros (ncols (kept_vectors s0 s vh atol_default rtol_default)))
    (ls, kept_vectors s0 s vh atol_default rtol_default) = Ok res →
  success res = false →
  compute_deposition tm rtp lstsq svd minimize cout flow apv p th R obj
  = mk_traced [CallLstsq; CallSvd; CallMinimize]
      (Raise (ValueError ("Optimization failed: " +:+ message res))).
Proof.
  intros Hdc Hlen Hls Hsvd Hres Hfail.
  rewrite (compute_deposition_run tm rtp lstsq svd minimize cout flow apv p th R obj
             df coeff ls u s0 s vh Hdc Hlen Hls Hsvd).
  cbn zeta. by rewrite Hres, Hfail.
Qed.

Lemma first_stage_failure_raises_witness :
  compute_deposition time_ns rt3 lstsq_row svd13 minimize_gives_up cout3 flow3
    (Fin (qc 5 2)) (Fin (qc 1 2)) (Fin (qc 2 1)) (Fin (qc 1 1)) (ObjStr "not_a_real_objective")
  = mk_traced [CallLstsq; CallSvd; CallMinimize]
      (Raise (ValueError
                ("Optimization failed: "
                 +:+ message (mk_OptimizeResult false
                                "Maximum number of iterations has been exceeded."
                                [f0; f0])))).
Proof.
  apply (first_stage_failure_raises time_ns rt3 lstsq_row svd13 minimize_gives_up cout3 flow3
           (Fin (qc 5 2)) (Fin (qc 1 2)) (Fin (qc 2 1)) (Fin (qc 1 1))
           (ObjStr "not_a_real_objective")
           [mk_df_row (day 2) (qc 5 2) (Fin (qc 1 1)) (qc (-1) 2) (Fin (qc 1 1))] a13
           (lstsq_row_value a13 (values cout3))
           (mk_ndarray 1 1 [[f1]]) (Fin (qc 3 2)) [] vh13).
  - by_compute.
  - reflexivity.
  - reflexivity.
  - reflexivity.
  - reflexivity.
  - reflexivity.
Defined.

(* ================================================================== *)
(** * More on the rows of [dt] *)
(* ================================================================== *)

(** The weights of [dt] are never negative: every entry of a row is 0, 1
    or the first-day weight, and that weight is the time from the
    infiltration timestamp to the next grid point.  On a daily index it is
    a fraction of a day (below 1) unless the infiltration timestamp lies
    before the first grid point. *)
Theorem dt_weights_are_fractions (tm : pandas_time) (flow : Series)
    (rt : list (option Qc)) (porosity thickness retardation_factor : float)
    (df_out : list df_row) (dt : ndarray) (iout : nat) (row : df_row) :
  increasingb (index flow) = true →
  make_df_out tm flow rt porosity thickness retardation_factor = Ok df_out →
  fill_dt (index flow) df_out 0 (np_zeros2 (length df_out) (length flow)) = Ok dt →
  df_out !! iout = Some row →
  ∃ r, rows dt !! iout = Some r ∧
       (∀ v, v ∈ r → ∃ q, v = Fin q ∧ (0 <= q)%Qc) ∧
       (daily (index flow) →
        0 < searchsorted (index flow) (row_dates_infiltration_retarded row) →
        ∃ w, r !! searchsorted (index flow) (row_dates_infiltration_retarded row)
             = Some (Fin w) ∧ (0 <= w)%Qc ∧ (w < 1)%Qc).
Proof.
  intros Hinc Hdf Hfill Hrow.
  destruct (fill_dt_row_weights _ _ _ _ _ _ _ _ _ _ Hinc Hdf Hfill Hrow) as (r & Hr & Hw).
  exists r. split; [done|].
  destruct Hw as (Hlen & Hextr & Hbelow & (t & Ht & Hle & Hwt) & Hones & Hzero).
  set (a := searchsorted (index flow) (row_dates_infiltration_retarded row)) in *.
  set (e := searchsorted (index flow) (row_date row)) in *.
  assert (Hw0 : (0 <= t - row_dates_infiltration_retarded row)%Qc).
  { by apply Qcle_minus_iff in Hle. }
  split.
  - intros v Hv. apply list_elem_of_lookup_1 in Hv as [j Hj].
    pose proof (lookup_lt_Some _ _ _ Hj) as Hjn. rewrite Hlen in Hjn.
    destruct (decide (j = a)) as [->|Hne].
    { rewrite Hwt in Hj. injection Hj as <-. eauto. }
    destruct (decide (a < j ≤ e)) as [Hin|Hout].
    + rewrite Hones in Hj by done. injection Hj as <-. exists 1%Qc. by split.
    + rewrite Hzero in Hj by done. injection Hj as <-. exists 0%Qc. by split.
  - intros Hd Ha. exists (t - row_dates_infiltration_retarded row)%Qc.
    split; [done|]. split; [done|].
    destruct (lookup_lt_is_Some_2 (index flow) (a - 1)) as [t0 Ht0].
    { apply lookup_lt_Some in Ht. lia. }
    assert (Hlt : (t0 < row_dates_infiltration_retarded row)%Qc).
    { apply (Hbelow (a - 1)); [lia|done]. }
    assert (Hstep : t = (t0 + 1)%Qc).
    { apply (Hd (a - 1)); [done|]. by replace (S (a - 1)) with a by lia. }
    subst t. apply (proj2 (Qclt_minus_iff _ _)).
    replace (1 + - (t0 + 1 - row_dates_infiltration_retarded row))%Qc
      with (row_dates_infiltration_retarded row + - t0)%Qc by ring.
    exact (proj1 (Qclt_minus_iff _ _) Hlt).
Qed.

Lemma dt_weights_are_fractions_witness :
  ∃ r, rows dt4 !! 1 = Some r ∧
       (∀ v, v ∈ r → ∃ q, v = Fin q ∧ (0 <= q)%Qc) ∧
       (daily (index flow4) →
        0 < searchsorted (index flow4) (row_dates_infiltration_retarded row4_1) →
        ∃ w, r !! searchsorted (index flow4) (row_dates_infiltration_retarded row4_1)
             = Some (Fin w) ∧ (0 <= w)%Qc ∧ (w < 1)%Qc).
Proof.
  apply (dt_weights_are_fractions time_ns flow4 (rt4 flow4 f0 f0)
           (Fin (qc 1 2)) (Fin (qc 2 1)) (Fin (qc 1 1)) df4).
  - vm_compute. reflexivity.
  - by_compute.
  - by_compute.
  - by_compute.
Defined.

(* ================================================================== *)
(** * deposition_coefficients and compute_concentration on missing data *)
(* ================================================================== *)

Lemma fill_dt_raises_index_error (flow_index : list Timestamp) (df_out : list df_row) :
  ∀ iout dt e, fill_dt flow_index df_out iout dt = Raise e → e = IndexError.
Proof.
  induction df_out as [|row rest IH]; intros iout dt e; [done|].
  cbn [fill_dt]. destruct (flow_index !! _) as [t|]; [apply IH|by intros [= <-]].
Qed.

(** A NaN flow value on a day that has a residence time is never carried
    into a returned matrix: [deposition_coefficients] raises, either the
    error of the time conversion of line 150, or the IndexError of the
    loop, or the ValueError about NaN coefficients. *)
Theorem nan_flow_rejected
    (tm : pandas_time) (rtp : Series → float → float → list (option Qc)) (flow : Series)
    (apv p th R : float) (k : nat) (t : Timestamp) (r : Qc) :
  valid_entries flow (rtp flow apv R) !! k = Some (t, NaN, r) →
  length (rtp flow apv R) = length flow →
  ∃ e, deposition_coefficients tm rtp flow apv p th R = Raise e ∧
       (make_df_out tm flow (rtp flow apv R) p th R = Raise e ∨
        e = IndexError ∨
        e = ValueError "Coefficients contain nan values.").
Proof.
  intros Hk Hlen.
  destruct (make_df_out tm flow (rtp flow apv R) p th R) as [df0|e] eqn:Hdf0.
  2:{ exists e. split; [by apply deposition_coefficients_table_error|by left]. }
  unfold deposition_coefficients.
  rewrite (scaled_coefficients_eval _ _ _ _ _ _ _ _ Hlen Hdf0).
  destruct (lookup_lt_is_Some_2 df0 k) as [row0 Hrow0].
  { rewrite (make_df_out_length _ _ _ _ _ _ _ Hdf0). by eapply lookup_lt_Some. }
  destruct (make_df_out_lookup _ _ _ _ _ _ _ _ _ Hdf0 Hrow0) as (e0 & He0 & Hmk).
  rewrite Hk in He0. injection He0 as <-.
  apply make_row_inv in Hmk as (_ & _ & Hflow0 & Harea0 & _).
  cbn [fst snd] in Hflow0, Harea0.
  assert (Harea : row_darea row0 = NaN) by (by rewrite Harea0).
  destruct (fill_dt (index flow) df0 0 (np_zeros2 (length df0) (length flow)))
    as [dt|e] eqn:Hfill.
  2:{ exists e. split; [done|]. right. left.
      by apply fill_dt_raises_index_error in Hfill. }
  exists (ValueError "Coefficients contain nan values."). split; [|by right; right].
  cbn [mbind result_bind].
  apply fill_dt_spec in Hfill as (_ & _ & _ & _ & Hrows).
  destruct (Hrows k _ Hrow0) as (t' & _ & Hdt). cbn [rows np_zeros2 Nat.add] in Hdt.
  rewrite lookup_replicate_2 in Hdt by (by apply lookup_lt_Some in Hrow0).
  cbn [fmap option_fmap option_map] in Hdt.
  set (dtr := row_update _ _ _ _) in Hdt.
  assert (Hdtr : length dtr = length flow).
  { unfold dtr, row_update.
    by rewrite length_insert, length_slice_assign, length_replicate. }
  assert (Hpos : 0 < length flow).
  { unfold valid_entries in Hk.
    assert (Hin : (t, NaN, r) ∈ valid_entries flow (rtp flow apv R))
      by (by eapply list_elem_of_lookup_2).
    apply list_elem_of_omap in Hin as (y & Hy & _).
    apply list_elem_of_lookup_1 in Hy as [j Hj].
    apply lookup_lt_Some in Hj. rewrite length_zip_with in Hj. lia. }
  destruct dtr as [|d0 dtr'] eqn:Edtr; [simpl in Hdtr; lia|].
  assert (Hnan : any_isnan
            (scale_rows
               ((fun r0 => row_darea r0 ⊘ row_flow r0)
                <$> ((fun r0 => set_row_flow
                                  (clip_lower (median (values flow) ⊘ Fin (qc 100 1))
                                     (row_flow r0)) r0) <$> df0)) dt) = true).
  { unfold any_isnan. apply existsb_exists.
    exists (F.mul NaN <$> (d0 :: dtr')). split.
    - apply list_elem_of_In. apply (list_elem_of_lookup_2 _ k). cbn [rows scale_rows].
      rewrite lookup_zip_with, !list_lookup_fmap, Hrow0, Hdt.
      cbn [mbind option_bind fmap option_fmap option_map set_row_flow row_flow row_darea].
      by rewrite Harea.
    - apply existsb_exists. exists NaN. split; [by left|done]. }
  by rewrite Hnan.
Qed.

(** With a NaN flow and a residence time too large for a Timedelta, the
    error of the conversion comes first. *)
Example nan_flow_out_of_bounds :
  deposition_coefficients time_ns rt_huge flow3_nan
    (Fin (qc 5 2)) (Fin (qc 1 2)) (Fin (qc 2 1)) (Fin (qc 1 1))
  = Raise OutOfBoundsTimedelta.
Proof. by_compute. Qed.

Lemma nan_flow_rejected_witness :
  ∃ e, deposition_coefficients time_ns rt3 flow3_nan
         (Fin (qc 5 2)) (Fin (qc 1 2)) (Fin (qc 2 1)) (Fin (qc 1 1)) = Raise e ∧
       (make_df_out time_ns flow3_nan (rt3 flow3_nan (Fin (qc 5 2)) (Fin (qc 1 1)))
          (Fin (qc 1 2)) (Fin (qc 2 1)) (Fin (qc 1 1)) = Raise e ∨
        e = IndexError ∨
        e = ValueError "Coefficients contain nan values.").
Proof.
  apply (nan_flow_rejected time_ns rt3 flow3_nan
           (Fin (qc 5 2)) (Fin (qc 1 2)) (Fin (qc 2 1)) (Fin (qc 1 1)) 0 (day 2) (qc 5 2)).
  - reflexivity.
  - reflexivity.
Defined.

(** When every residence time is missing, [compute_concentration] returns
    the empty series for a deposition series as long as the flow series:
    the matrix has no rows and nothing is predicted. *)
Theorem compute_concentration_all_missing
    (tm : pandas_time) (rtp : Series → float → float → list (option Qc)) (flow dep : Series)
    (apv p th R : float) :
  rtp flow apv R = replicate (length flow) None →
  length dep = length flow →
  compute_concentration tm rtp dep flow apv p th R = Ok [].
Proof.
  intros Hrt Hlen. unfold compute_concentration.
  rewrite (deposition_coefficients_all_missing tm rtp flow apv p th R Hrt), Hrt.
  cbn [mbind result_bind]. unfold matvec. cbn [ncols rows]. rewrite length_values.
  destruct (decide (length flow = length dep)) as [_|]; [|congruence].
  cbn [mbind result_bind fmap list_fmap].
  by rewrite valid_entries_all_missing.
Qed.

Lemma compute_concentration_all_missing_witness :
  compute_concentration time_ns rt_missing deposition3 flow3
    (Fin (qc 5 2)) (Fin (qc 1 2)) (Fin (qc 2 1)) (Fin (qc 1 1)) = Ok [].
Proof.
  apply (compute_concentration_all_missing time_ns rt_missing flow3 deposition3); reflexivity.
Defined.

(* ================================================================== *)
(** * The default objective and the directions it may move along *)
(* ================================================================== *)

Lemma qsumsq_all_zero (l : list Qc) :
  (∀ i e, l !! i = Some e → e = 0%Qc) → qsumsq l = 0%Qc.
Proof.
  induction l as [|a l IH]; intros H; [done|]. cbn [qsumsq].
  rewrite (H 0 a eq_refl), IH; [ring|]. intros i e Hi. by apply (H (S i)).
Qed.

(** The first differences of an exact series. *)
Lemma first_differences_fin (qs : list Qc) :
  first_differences (Fin <$> qs)
  = Fin <$> zip_with Qcminus (drop 1 qs) (take (length qs - 1) qs).
Proof.
  unfold first_differences.
  by rewrite length_fmap, <- fmap_drop, <- fmap_take, zip_with_sub_fin.
Qed.

Lemma differences_zero_iff (qs : list Qc) :
  (∀ i e, zip_with Qcminus (drop 1 qs) (take (length qs - 1) qs) !! i = Some e → e = 0%Qc)
  ↔ (∀ i a b, qs !! i = Some a → qs !! S i = Some b → a = b).
Proof.
  split.
  - intros H i a b Ha Hb.
    pose proof (lookup_lt_Some _ _ _ Hb) as Hlt.
    assert (E : (b - a)%Qc = 0%Qc).
    { apply (H i). rewrite lookup_zip_with, lookup_drop, lookup_take_lt by lia.
      replace (1 + i) with (S i) by lia. by rewrite Ha, Hb. }
    apply Qcplus_inj_l with (- a)%Qc. simpl. rewrite Qcplus_opp_r. by symmetry.
  - intros H i e He. rewrite lookup_zip_with, lookup_drop in He.
    replace (1 + i) with (S i) in He by lia.
    destruct (qs !! S i) as [b|] eqn:Hb; [|done]. cbn in He.
    destruct (take (length qs - 1) qs !! i) as [a|] eqn:Ha; [|done]. cbn in He.
    injection He as <-. apply lookup_take_Some in Ha as [Ha _].
    rewrite (H i a b Ha Hb). ring.
Qed.




